(** * The interview flow controller of [chatbot/interview_chat.py]

    A shallow embedding of the question parser ([generate_questions]), of the
    answer evaluation step ([evaluate_answer]) and of the command-line loop
    ([run_interview]), together with the properties of the controller.

    Text is modelled by [string]; a character is read as a code point below
    256.  On such text the definitions of [PyStr] agree with the methods of
    Python's [str] that the program calls.  The hosted model is an oracle
    from the prompt to the content of its response. *)

From Stdlib Require Import Bool Arith ZArith Lia List Ascii String.
Import ListNotations.

Local Open Scope string_scope.
Local Open Scope list_scope.

(** ** Python's string methods *)

Module PyStr.

(** The character that [str.split] is called with. *)
Definition LF : ascii := ascii_of_nat 10.

(** The double quote, written inside the follow-up prompt. *)
Definition DQUOTE : ascii := ascii_of_nat 34.

Definition between (lo hi n : nat) : bool := (lo <=? n)%nat && (n <=? hi)%nat.

(** [str.isspace] on one character: TAB, LF, VT, FF, CR, the separators
    FS, GS, RS, US, the space, NEL and the no-break space. *)
Definition is_space (c : ascii) : bool :=
  let n := nat_of_ascii c in
  between 9 13 n || between 28 32 n || (n =? 133)%nat || (n =? 160)%nat.

(** [str.lower] on one character: A-Z and the accented capitals of the
    Latin-1 block (the multiplication sign 215 is not a letter). *)
Definition lower_char (c : ascii) : ascii :=
  let n := nat_of_ascii c in
  if between 65 90 n || between 192 214 n || between 216 222 n
  then ascii_of_nat (n + 32)
  else c.

(** [s.lower()] *)
Fixpoint lower (s : string) : string :=
  match s with
  | EmptyString => EmptyString
  | String c s' => String (lower_char c) (lower s')
  end.

(** [c in chars] for a single character [c]. *)
Fixpoint mem_char (c : ascii) (chars : string) : bool :=
  match chars with
  | EmptyString => false
  | String d chars' => Ascii.eqb c d || mem_char c chars'
  end.

(** Removal of the leading characters that satisfy [p]. *)
Fixpoint lstrip_by (p : ascii -> bool) (s : string) : string :=
  match s with
  | EmptyString => EmptyString
  | String c s' => if p c then lstrip_by p s' else s
  end.

(** Removal of the trailing characters that satisfy [p]. *)
Fixpoint rstrip_by (p : ascii -> bool) (s : string) : string :=
  match s with
  | EmptyString => EmptyString
  | String c s' =>
      match rstrip_by p s' with
      | EmptyString => if p c then EmptyString else String c EmptyString
      | String d r => String c (String d r)
      end
  end.

Definition strip_by (p : ascii -> bool) (s : string) : string :=
  rstrip_by p (lstrip_by p s).

(** [s.strip(chars)] *)
Definition strip_chars (chars s : string) : string :=
  strip_by (fun c => mem_char c chars) s.

(** [s.strip()] *)
Definition strip (s : string) : string := strip_by is_space s.

(** [s.split(sep)] for a separator of one character: never the empty list. *)
Fixpoint split (sep : ascii) (s : string) : list string :=
  match s with
  | EmptyString => [EmptyString]
  | String c s' =>
      if Ascii.eqb c sep then EmptyString :: split sep s'
      else match split sep s' with
           | l :: ls => String c l :: ls
           | [] => [String c EmptyString]
           end
  end.

(** [s.startswith(p)] *)
Definition startswith (p s : string) : bool := String.prefix p s.

(** [sub in s] *)
Fixpoint contains (sub s : string) : bool :=
  String.prefix sub s ||
  match s with
  | EmptyString => false
  | String _ s' => contains sub s'
  end.

(** [s.replace(old, new)]: the occurrences of [old] are found from the left
    and do not overlap.  [skip] counts the characters of an occurrence that
    are still to be passed over. *)
Fixpoint replace_go (old new : string) (skip : nat) (s : string) : string :=
  match s with
  | EmptyString => EmptyString
  | String c s' =>
      match skip with
      | S k => replace_go old new k s'
      | O =>
          if String.prefix old s
          then new ++ replace_go old new (String.length old - 1) s'
          else String c (replace_go old new 0 s')
      end
  end.

(** With an empty [old], Python puts [new] before every character and at
    the end. *)
Fixpoint interleave (new s : string) : string :=
  match s with
  | EmptyString => new
  | String c s' => new ++ String c (interleave new s')
  end.

Definition replace (old new s : string) : string :=
  match old with
  | EmptyString => interleave new s
  | String _ _ => replace_go old new 0 s
  end.

(** [not s]: the truth value of a string is its being non-empty. *)
Definition is_empty (s : string) : bool :=
  match s with
  | EmptyString => true
  | String _ _ => false
  end.

(** [s.endswith(suffix)]: the suffix is [s] or what is left of [s] after
    some of its first characters. *)
Fixpoint endswith (suffix s : string) : bool :=
  String.eqb suffix s ||
  match s with
  | EmptyString => false
  | String _ s' => endswith suffix s'
  end.

(** [sep.join(parts)] *)
Definition join (sep : string) (parts : list string) : string :=
  String.concat sep parts.

End PyStr.

(** ** Python's list indexing *)

Module PyList.

(** [l[i]]: a negative index counts from the end; [None] is [IndexError]. *)
Definition getitem {A : Type} (l : list A) (i : Z) : option A :=
  let n := Z.of_nat (List.length l) in
  if (0 <=? i)%Z then nth_error l (Z.to_nat i)
  else if (- n <=? i)%Z then nth_error l (Z.to_nat (n + i))
  else None.

(** [l[:n]] *)
Definition slice_to {A : Type} (n : nat) (l : list A) : list A := firstn n l.

(** [l.append(x)] *)
Definition append {A : Type} (l : list A) (x : A) : list A := l ++ [x].

End PyList.

(** ** Exceptions *)

Inductive exn : Type :=
| IndexError
| KeyError.

Inductive result (A : Type) : Type :=
| Ok (a : A)
| Raise (e : exn).

Arguments Ok {A} a.
Arguments Raise {A} e.

Definition bind {A B : Type} (r : result A) (k : A -> result B) : result B :=
  match r with
  | Ok a => k a
  | Raise e => Raise e
  end.

Definition index_or_raise {A : Type} (o : option A) : result A :=
  match o with
  | Some a => Ok a
  | None => Raise IndexError
  end.

(** [d[key]] on a dict that may lack the key. *)
Definition key_or_raise {A : Type} (o : option A) : result A :=
  match o with
  | Some a => Ok a
  | None => Raise KeyError
  end.

Notation "'let*' x ':=' r 'in' k" := (bind r (fun x => k))
  (at level 10, x name, r at level 100, k at level 200).

(** ** The session state *)

(** A message of the dialogue; the program only builds [AIMessage]s and
    [HumanMessage]s and reads their [content]. *)
Inductive message : Type :=
| AIMessage (content : string)
| HumanMessage (content : string).

Definition content (m : message) : string :=
  match m with
  | AIMessage c => c
  | HumanMessage c => c
  end.

(** The resume is a dict.  The program only prints the values of five keys
    into a prompt, so a value is kept as the text that an f-string prints
    for it. *)
Definition Resume : Type := list (string * string).

(** The text printed for [resume.get(key)]; a missing key prints [None]. *)
Fixpoint resume_get (resume : Resume) (key : string) : string :=
  match resume with
  | [] => "None"
  | (k, v) :: rest => if String.eqb k key then v else resume_get rest key
  end.

(** [class InterviewState(TypedDict)] *)
Record InterviewState : Type := mkState {
  resume : Resume;
  questions : list string;
  current_index : Z;
  answers : list string;
  strengths : list string;
  weaknesses : list string;
  messages : list message
}.

(** The dict a node returns: the keys it holds are the fields to overwrite. *)
Record Update : Type := mkUpdate {
  u_questions : option (list string);
  u_current_index : option Z;
  u_answers : option (list string);
  u_strengths : option (list string);
  u_weaknesses : option (list string);
  u_messages : option (list message)
}.

Definition or_else {A : Type} (o : option A) (d : A) : A :=
  match o with
  | Some a => a
  | None => d
  end.

(** The merge of a returned dict into the state: a key of the dict replaces
    the field, the other fields stay. *)
Definition apply_update (st : InterviewState) (u : Update) : InterviewState :=
  {| resume := resume st;
     questions := or_else (u_questions u) (questions st);
     current_index := or_else (u_current_index u) (current_index st);
     answers := or_else (u_answers u) (answers st);
     strengths := or_else (u_strengths u) (strengths st);
     weaknesses := or_else (u_weaknesses u) (weaknesses st);
     messages := or_else (u_messages u) (messages st) |}.

(** The hosted model: from the prompt to the content of the response. *)
Definition LLM : Type := string -> string.

(** ** Node 1: [generate_questions] *)

Definition generate_prompt (resume : Resume) : string :=
  "
    Based on this resume:

    Name: " ++ resume_get resume "name" ++ "
    Experience: " ++ resume_get resume "experience_years" ++ " years
    Skills: " ++ resume_get resume "skills" ++ "
    Projects: " ++ resume_get resume "projects" ++ "
    Summary: " ++ resume_get resume "summary" ++ "

    Generate 2 deep technical interview questions.
    Make them personalized and implementation-focused.
    Return only numbered questions.
    ".

(** [line.strip("12345. ").strip()] *)
Definition clean_line (line : string) : string :=
  PyStr.strip (PyStr.strip_chars "12345. " line).

(** One turn of the loop over the lines of the response. *)
Definition collect_question (qs : list string) (line : string) : list string :=
  let clean := clean_line line in
  if PyStr.is_empty clean then qs else PyList.append qs clean.

(** The question-line parser: the list [questions] when the loop ends. *)
Definition parse_questions (content : string) : list string :=
  fold_left collect_question (PyStr.split PyStr.LF content) [].

Definition generate_questions (llm : LLM) (state : InterviewState)
  : result Update :=
  let prompt := generate_prompt (resume state) in
  let content := llm prompt in
  let qs := parse_questions content in
  let kept := PyList.slice_to 5 qs in
  let* first := index_or_raise (PyList.getitem qs 0) in
  Ok {| u_questions := Some kept;
        u_current_index := Some 0%Z;
        u_answers := Some [];
        u_strengths := Some [];
        u_weaknesses := Some [];
        u_messages := Some [AIMessage first] |}.

(** ** Node 2: [evaluate_answer] *)

Definition evaluation_prompt (question last_answer : string) : string :=
  "
    Interview Question: " ++ question ++ "
    Candidate Answer: " ++ last_answer ++ "

    1. Does the answer show strong technical clarity? (yes/no)
    2. Is there any conceptual mistake or weak explanation?
    3. Should we ask a follow-up? (yes/no)

    Also extract:
    - One strength if present
    - One weakness if present

    Return format:
    Strength:
    Weakness:
    FollowUp: yes/no
    ".

Definition followup_prompt (last_answer : string) : string :=
  "
        The candidate answered:
        " ++ String PyStr.DQUOTE last_answer ++ String PyStr.DQUOTE "

        There was a weakness or unclear explanation.
        Ask ONE probing follow-up question to test their understanding deeper.
        ".

(** The three variables that the scan of the response sets. *)
Record Scan : Type := mkScan {
  strength : string;
  weakness : string;
  followup_needed : bool
}.

Definition scan_init : Scan :=
  {| strength := ""; weakness := ""; followup_needed := false |}.

(** One turn of the loop over the lines of the lower-cased response. *)
Definition scan_line (sc : Scan) (line : string) : Scan :=
  let s1 :=
    if PyStr.startswith "strength" line
    then PyStr.strip (PyStr.replace "strength:" "" line)
    else strength sc in
  let w1 :=
    if PyStr.startswith "weakness" line
    then PyStr.strip (PyStr.replace "weakness:" "" line)
    else weakness sc in
  let f1 :=
    if PyStr.contains "followup: yes" line then true else followup_needed sc in
  {| strength := s1; weakness := w1; followup_needed := f1 |}.

Definition scan_response (content : string) : Scan :=
  fold_left scan_line (PyStr.split PyStr.LF content) scan_init.

(** [if x: l.append(x)] *)
Definition append_if_nonempty (l : list string) (x : string) : list string :=
  if PyStr.is_empty x then l else PyList.append l x.

(** The two lists of the state are changed in place: the caller sees them in
    the state that is returned next to the dict.  The lists of a state are
    distinct objects, as [run_interview] and [generate_questions] build them. *)
Definition record_findings (state : InterviewState) (sc : Scan) : InterviewState :=
  {| resume := resume state;
     questions := questions state;
     current_index := current_index state;
     answers := answers state;
     strengths := append_if_nonempty (strengths state) (strength sc);
     weaknesses := append_if_nonempty (weaknesses state) (weakness sc);
     messages := messages state |}.

(** A dict with the key [messages] only. *)
Definition only_messages (ms : list message) : Update :=
  {| u_questions := None; u_current_index := None; u_answers := None;
     u_strengths := None; u_weaknesses := None; u_messages := Some ms |}.

(** A dict with the keys [current_index] and [messages]. *)
Definition index_and_messages (idx : Z) (ms : list message) : Update :=
  {| u_questions := None; u_current_index := Some idx; u_answers := None;
     u_strengths := None; u_weaknesses := None; u_messages := Some ms |}.

Definition evaluate_answer (llm : LLM) (state : InterviewState)
  : result (InterviewState * Update) :=
  let idx := current_index state in
  let qs := questions state in
  let* last_answer := index_or_raise (PyList.getitem (answers state) (-1)) in
  let* question := index_or_raise (PyList.getitem qs idx) in
  let content := PyStr.lower (llm (evaluation_prompt question last_answer)) in
  let sc := scan_response content in
  let state' := record_findings state sc in
  if followup_needed sc then
    let followup_question := PyStr.strip (llm (followup_prompt last_answer)) in
    Ok (state', only_messages [AIMessage followup_question])
  else
    let idx := (idx + 1)%Z in
    if (Z.of_nat (List.length qs) <=? idx)%Z then
      Ok (state', index_and_messages idx [AIMessage "Interview complete."])
    else
      let* next := index_or_raise (PyList.getitem qs idx) in
      Ok (state', index_and_messages idx [AIMessage next]).

(** The value of [current_index] once the returned dict is merged. *)
Definition index_after (state' : InterviewState) (u : Update) : Z :=
  current_index (apply_update state' u).

(** The index a caller observes after one call: an exception leaves the
    state as it was. *)
Definition index_after_call (llm : LLM) (state : InterviewState) : Z :=
  match evaluate_answer llm state with
  | Ok (state', u) => index_after state' u
  | Raise _ => current_index state
  end.

(** ** The graph and the interview runner *)

(** [graph.invoke(state)]: the graph runs the node [generate] and ends; what
    it returns is the state with the dict of the node merged. *)
Definition graph_invoke (llm : LLM) (state : InterviewState)
  : result InterviewState :=
  let* u := generate_questions llm state in
  Ok (apply_update state u).

(** The start state of [run_interview]. *)
Definition start_state (resume_data : Resume) : InterviewState :=
  {| resume := resume_data;
     questions := [];
     current_index := 0%Z;
     answers := [];
     strengths := [];
     weaknesses := [];
     messages := [] |}.

(** The variables of [run_interview] that live across the turns of its loop. *)
Record Loop : Type := mkLoop {
  l_state : InterviewState;
  l_questions : list string;
  l_current_question : string;
  l_idx : Z;
  l_followup_mode : bool
}.

(** How a turn of [while True] ends. *)
Inductive outcome : Type :=
| Continue (l : Loop)
| Break (l : Loop).

(** From the start state to the head of the loop. *)
Definition loop_entry (llm : LLM) (resume_data : Resume) : result Loop :=
  let state := start_state resume_data in
  let* res := graph_invoke llm state in
  let qs := questions res in
  let* last := index_or_raise (PyList.getitem (messages res) (-1)) in
  Ok {| l_state := state;
        l_questions := qs;
        l_current_question := content last;
        l_idx := 0%Z;
        l_followup_mode := false |}.

(** The state that a turn passes to [evaluate_answer]. *)
Definition turn_state (answer : string) (l : Loop) : InterviewState :=
  let state := l_state l in
  {| resume := resume state;
     questions := l_questions l;
     current_index := l_idx l;
     answers := PyList.append (answers state) answer;
     strengths := strengths state;
     weaknesses := weaknesses state;
     messages := messages state |}.

(** One turn of the loop, [answer] being the line read from the candidate. *)
Definition loop_body (llm : LLM) (answer : string) (l : Loop) : result outcome :=
  let qs := l_questions l in
  let state := turn_state answer l in
  let* r := evaluate_answer llm state in
  let (state', res) := r in
  let* ms := key_or_raise (u_messages res) in
  let* last := index_or_raise (PyList.getitem ms (-1)) in
  let current_question := content last in
  if PyStr.contains "interview complete" (PyStr.lower current_question) then
    Ok (Break {| l_state := state'; l_questions := qs;
                 l_current_question := current_question;
                 l_idx := l_idx l;
                 l_followup_mode := l_followup_mode l |})
  else
    let (idx, followup_mode) :=
      match u_current_index res with
      | None => (l_idx l, true)
      | Some i => (i, false)
      end in
    let l' := {| l_state := state'; l_questions := qs;
                 l_current_question := current_question;
                 l_idx := idx;
                 l_followup_mode := followup_mode |} in
    if (Z.of_nat (List.length qs) <=? idx)%Z then Ok (Break l')
    else Ok (Continue l').

(** The loop on the turns that are given: each turn has the behaviour of the
    hosted model during it and the line that the candidate types. *)
Fixpoint run_turns (turns : list (LLM * string)) (l : Loop) : result outcome :=
  match turns with
  | [] => Ok (Continue l)
  | (llm, answer) :: rest =>
      let* o := loop_body llm answer l in
      match o with
      | Continue l' => run_turns rest l'
      | Break l' => Ok (Break l')
      end
  end.

(** The values of the loop variables at the head of the loop. *)
Inductive at_loop_head (resume_data : Resume) : Loop -> Prop :=
| head_entry : forall llm l,
    loop_entry llm resume_data = Ok l ->
    at_loop_head resume_data l
| head_next : forall llm answer l l',
    at_loop_head resume_data l ->
    loop_body llm answer l = Ok (Continue l') ->
    at_loop_head resume_data l'.

(** ** Reading the document: [extract_text] and the head of [run_interview] *)

(** The two libraries that open a document: the text of every page of a
    PDF ([page.get_text()]) and the text of every paragraph of a DOCX
    ([p.text]), in the order of the document. *)
Record Readers : Type := mkReaders {
  pdf_pages : string -> list string;
  docx_paragraphs : string -> list string
}.

(** [p.text.strip()] as a condition: the paragraph has a visible character. *)
Definition has_text (t : string) : bool :=
  negb (PyStr.is_empty (PyStr.strip t)).

Definition extract_text (fs : Readers) (path : string) : string :=
  let lowered := PyStr.lower path in
  if PyStr.endswith ".pdf" lowered then
    fold_left (fun text page => (text ++ page)%string) (pdf_pages fs path) ""
  else if PyStr.endswith ".docx" lowered then
    PyStr.join (String PyStr.LF "") (filter has_text (docx_paragraphs fs path))
  else "".

(** How [run_interview] reaches its loop, or does not: what it prints is
    left out but for the message of the first case. *)
Inductive entry : Type :=
| NoReadableText
| Entered (l : Loop).

(** [run_interview] up to the head of its loop; [structured_llm] is the
    model that returns the resume as a dict. *)
Definition run_interview_entry
  (fs : Readers) (structured_llm : string -> Resume) (llm : LLM)
  (file_path : string) : result entry :=
  let text := extract_text fs file_path in
  if PyStr.is_empty (PyStr.strip text) then Ok NoReadableText
  else
    let resume_data := structured_llm text in
    let* l := loop_entry llm resume_data in
    Ok (Entered l).

(** ** Vocabulary of the further properties *)

(** Every character of a text satisfies [p]. *)
Fixpoint forall_chars (p : ascii -> bool) (s : string) : bool :=
  match s with
  | EmptyString => true
  | String c s' => p c && forall_chars p s'
  end.

(** A text of white space only (the empty text is one). *)
Definition blank (s : string) : bool := forall_chars PyStr.is_space s.

(** The last character of a text satisfies [p]. *)
Fixpoint ends_with (p : ascii -> bool) (s : string) : bool :=
  match s with
  | EmptyString => false
  | String c EmptyString => p c
  | String _ s' => ends_with p s'
  end.

(** A character that the cleaning of a line removes at either end. *)
Definition strippable (c : ascii) : bool :=
  PyStr.mem_char c "12345. " || PyStr.is_space c.

(** The keys of the resume that the prompt of [generate_questions] prints. *)
Definition prompt_keys : list string :=
  ["name"; "experience_years"; "skills"; "projects"; "summary"].

(** The loop variables with which a turn ends. *)
Definition final_loop (o : outcome) : Loop :=
  match o with
  | Continue l => l
  | Break l => l
  end.

(** A model that never asks for a follow-up. *)
Definition never_follows (llm : LLM) : Prop :=
  forall prompt,
    PyStr.contains "followup: yes" (PyStr.lower (llm prompt)) = false.


(** ** The two labels of the evaluation *)

(** The scan treats the strength and the weakness alike; a label selects
    the word it looks for, the tag it removes and the list that grows. *)
Inductive label : Type :=
| Strength
| Weakness.

Definition label_word (lbl : label) : string :=
  match lbl with
  | Strength => "strength"
  | Weakness => "weakness"
  end.

Definition label_tag (lbl : label) : string :=
  match lbl with
  | Strength => "strength:"
  | Weakness => "weakness:"
  end.

Definition scanned (lbl : label) (sc : Scan) : string :=
  match lbl with
  | Strength => strength sc
  | Weakness => weakness sc
  end.

Definition findings (lbl : label) (state : InterviewState) : list string :=
  match lbl with
  | Strength => strengths state
  | Weakness => weaknesses state
  end.

(** The value that the scan takes from a line that starts with the word of
    the label. *)
Definition line_value (lbl : label) (line : string) : string :=
  PyStr.strip (PyStr.replace (label_tag lbl) "" line).

(** No line of [lines] starts with the word of the label. *)
Definition no_later_line (lbl : label) (lines : list string) : Prop :=
  Forall (fun l => PyStr.startswith (label_word lbl) l = false) lines.

(** ** The cleaned lines of a response *)

(** The lines of a response that are not empty once cleaned, in order. *)
Definition cleaned_lines (content : string) : list string :=
  filter (fun q => negb (PyStr.is_empty q))
         (map clean_line (PyStr.split PyStr.LF content)).

(** A digit, a period or a space. *)
Definition numeral_period_space (c : ascii) : bool :=
  PyStr.between 48 57 (nat_of_ascii c) || Ascii.eqb c "." || Ascii.eqb c " ".

(** The first character of a text satisfies [p]. *)
Definition begins_with (p : ascii -> bool) (s : string) : bool :=
  match s with
  | EmptyString => false
  | String c _ => p c
  end.

(** Every character of a text is one of [chars]. *)
Definition made_of (chars s : string) : Prop :=
  forall c, PyStr.mem_char c s = true -> PyStr.mem_char c chars = true.

(** ** Sample sessions *)

Module Sample.

(** A state in the middle of an interview on two questions. *)
Definition state : InterviewState :=
  {| resume := [("name", "Ada")];
     questions := ["Explain X"; "Explain Y"];
     current_index := 0%Z;
     answers := ["X is a lock."];
     strengths := [];
     weaknesses := [];
     messages := [] |}.

(** The same state on its last question. *)
Definition last_state : InterviewState :=
  {| resume := [("name", "Ada")];
     questions := ["Explain X"; "Explain Y"];
     current_index := 1%Z;
     answers := ["X is a lock."; "Y is a queue."];
     strengths := ["clear"];
     weaknesses := [];
     messages := [] |}.

(** A model is given by its answer to the evaluation prompt and its answer
    to the other prompts. *)
Definition model (evaluation other : string) : LLM :=
  fun prompt =>
    if PyStr.contains "Interview Question: " prompt then evaluation else other.

Definition asks_followup : LLM :=
  model "strength: names the primitive
weakness: no example
followup: yes" "  Which thread holds it?  ".

Definition moves_on : LLM :=
  model "Strength: Names the primitive
Weakness: No example
FollowUp: no" "".

Definition two_strengths : LLM :=
  model "strength: clear
strength: brief
followup: no" "".

Definition capital_followup : LLM :=
  model "FollowUp: Yes" "Why?".

Definition numbered : LLM :=
  fun _ => "1. What is a mutex?
2. Why use a queue?".

Definition sixth : LLM :=
  fun _ => "6. What is a mutex?".

Definition blank : LLM :=
  fun _ => "1.
  ".

(** What [evaluate_answer] returns on [last_state] with [moves_on]. *)
Definition last_state_after : InterviewState :=
  {| resume := [("name", "Ada")];
     questions := ["Explain X"; "Explain Y"];
     current_index := 1%Z;
     answers := ["X is a lock."; "Y is a queue."];
     strengths := ["clear"; "names the primitive"];
     weaknesses := ["no example"];
     messages := [] |}.

Definition last_update : Update :=
  index_and_messages 2 [AIMessage "Interview complete."].


(** A model that answers like [moves_on] to one evaluation prompt and
    with the empty text to every other prompt. *)
Definition moves_on_once : LLM :=
  fun prompt =>
    if String.eqb prompt (evaluation_prompt "Explain X" "X is a lock.")
    then moves_on prompt
    else "".

(** A model whose follow-up question holds the words that end the loop. *)
Definition says_complete : LLM :=
  model "followup: yes" "Is the interview complete for you?".

Definition untagged : LLM :=
  model "Strengths are many
followup: no" "".

(** A folder with one PDF of two pages and one DOCX of three paragraphs. *)
Definition folder : Readers :=
  {| pdf_pages := fun _ => ["Ada Lovelace "; "Engines"];
     docx_paragraphs := fun _ => ["Ada"; "   "; "Engines"] |}.

Definition empty_folder : Readers :=
  {| pdf_pages := fun _ => [" "; ""];
     docx_paragraphs := fun _ => ["   "; ""] |}.

(** The loop variables when the loop is entered with the questions of
    [numbered]. *)
Definition entered : Loop :=
  {| l_state := start_state [("name", "Ada")];
     l_questions := ["What is a mutex?"; "Why use a queue?"];
     l_current_question := "What is a mutex?";
     l_idx := 0%Z;
     l_followup_mode := false |}.

(** The loop variables after [says_complete] has answered the first turn. *)
Definition ended : Loop :=
  {| l_state :=
       {| resume := [("name", "Ada")];
          questions := ["What is a mutex?"; "Why use a queue?"];
          current_index := 0%Z;
          answers := ["A lock."];
          strengths := [];
          weaknesses := [];
          messages := [] |};
     l_questions := ["What is a mutex?"; "Why use a queue?"];
     l_current_question := "Is the interview complete for you?";
     l_idx := 0%Z;
     l_followup_mode := false |}.

End Sample.

(** * Properties *)

(** ** Facts on the string methods *)

Section StripFacts.

Variable p : ascii -> bool.

Lemma lstrip_by_head (s : string) (c : ascii) (r : string) :
  PyStr.lstrip_by p s = String c r -> p c = false.
Proof.
  induction s as [|d s IH]; simpl; [discriminate|].
  destruct (p d) eqn:E; [exact IH|].
  intros H; inversion H; subst; exact E.
Qed.

Lemma rstrip_by_head (s : string) (c : ascii) (r : string) :
  PyStr.rstrip_by p s = String c r -> exists s', s = String c s'.
Proof.
  destruct s as [|d s]; simpl; [discriminate|].
  destruct (PyStr.rstrip_by p s); [destruct (p d)|];
    intros H; inversion H; subst; eauto.
Qed.

Lemma rstrip_by_keeps_head (c : ascii) (s : string) :
  p c = false -> exists r, PyStr.rstrip_by p (String c s) = String c r.
Proof.
  intros Hc; simpl.
  destruct (PyStr.rstrip_by p s); [rewrite Hc|]; eauto.
Qed.

Lemma strip_by_head (s : string) (c : ascii) (r : string) :
  PyStr.strip_by p s = String c r -> p c = false.
Proof.
  unfold PyStr.strip_by; intros H.
  destruct (rstrip_by_head _ _ _ H) as [s' Hs].
  exact (lstrip_by_head _ _ _ Hs).
Qed.

Lemma strip_by_keeps_head (c : ascii) (s : string) :
  p c = false -> exists r, PyStr.strip_by p (String c s) = String c r.
Proof.
  intros Hc; unfold PyStr.strip_by; simpl; rewrite Hc.
  exact (rstrip_by_keeps_head c s Hc).
Qed.

Lemma lstrip_by_app (pre s : string) :
  (forall c, PyStr.mem_char c pre = true -> p c = true) ->
  PyStr.lstrip_by p (pre ++ s) = PyStr.lstrip_by p s.
Proof.
  induction pre as [|d pre IH]; simpl; intros H; [reflexivity|].
  rewrite (H d) by (rewrite Ascii.eqb_refl; reflexivity).
  apply IH; intros c Hc; apply H; rewrite Hc; apply orb_true_r.
Qed.

End StripFacts.

Section PrefixFacts.

Lemma prefix_app (p t : string) : String.prefix p (p ++ t) = true.
Proof.
  induction p as [|a p IH]; simpl; [destruct t; reflexivity|].
  destruct (ascii_dec a a) as [_|N]; [exact IH|contradiction].
Qed.

Lemma prefix_inv (p s : string) :
  String.prefix p s = true -> exists t, s = (p ++ t)%string.
Proof.
  revert s; induction p as [|a p IH]; intros s H.
  - exists s; reflexivity.
  - destruct s as [|b s]; simpl in H; [discriminate|].
    destruct (ascii_dec a b) as [->|_]; [|discriminate].
    destruct (IH s H) as [t ->]; exists t; reflexivity.
Qed.

Lemma prefix_nil (s : string) : String.prefix "" s = true.
Proof. destruct s; reflexivity. Qed.

Lemma append_assoc (a b c : string) :
  ((a ++ b) ++ c)%string = (a ++ (b ++ c))%string.
Proof. induction a as [|x a IH]; simpl; [reflexivity|now rewrite IH]. Qed.

Lemma prefix_trans (p l t : string) :
  String.prefix p l = true -> String.prefix p (l ++ t) = true.
Proof.
  intros H; destruct (prefix_inv p l H) as [u ->].
  rewrite append_assoc; apply prefix_app.
Qed.

Lemma contains_String (p : string) (c : ascii) (s : string) :
  PyStr.contains p (String c s)
  = String.prefix p (String c s) || PyStr.contains p s.
Proof. reflexivity. Qed.

Lemma contains_cons (p : string) (c : ascii) (s : string) :
  PyStr.contains p s = true -> PyStr.contains p (String c s) = true.
Proof. intros H; rewrite contains_String, H; apply orb_true_r. Qed.

End PrefixFacts.

Section LowerFacts.

Lemma prefix_lower (p s : string) :
  String.prefix p s = true ->
  String.prefix (PyStr.lower p) (PyStr.lower s) = true.
Proof.
  intros H; destruct (prefix_inv p s H) as [t ->].
  assert (E : forall a b, PyStr.lower (a ++ b)
                          = (PyStr.lower a ++ PyStr.lower b)%string).
  { intros a b; induction a as [|x a IH]; simpl; [reflexivity|now rewrite IH]. }
  rewrite E; apply prefix_app.
Qed.

Lemma contains_lower (p s : string) :
  PyStr.contains p s = true ->
  PyStr.contains (PyStr.lower p) (PyStr.lower s) = true.
Proof.
  induction s as [|c s IH]; simpl; intros H.
  - rewrite orb_false_r in H |- *. exact (prefix_lower p "" H).
  - apply orb_true_iff in H as [H|H].
    + apply orb_true_iff; left. exact (prefix_lower p (String c s) H).
    + apply orb_true_iff; right; auto.
Qed.

End LowerFacts.

Section SplitFacts.

Variable sep : ascii.

Lemma split_not_nil (s : string) : PyStr.split sep s <> [].
Proof.
  induction s as [|c s IH]; simpl; [discriminate|].
  destruct (Ascii.eqb c sep); [discriminate|].
  destruct (PyStr.split sep s); [contradiction|discriminate].
Qed.

(** The first piece is a prefix of the text. *)
Lemma split_head_prefix (s l : string) (ls : list string) :
  PyStr.split sep s = l :: ls -> exists t, s = (l ++ t)%string.
Proof.
  revert l ls; induction s as [|c s IH]; simpl; intros l ls H.
  - inversion H; subst; exists ""; reflexivity.
  - destruct (Ascii.eqb c sep).
    + inversion H; subst; exists (String c s); reflexivity.
    + destruct (PyStr.split sep s) as [|l0 ls0] eqn:E.
      * inversion H; subst. exfalso; exact (split_not_nil s E).
      * inversion H; subst.
        destruct (IH l0 ls eq_refl) as [t ->]; exists t; reflexivity.
Qed.

(** A prefix without the separator lies inside the first piece. *)
Lemma prefix_split_head (p s : string) :
  PyStr.mem_char sep p = false ->
  String.prefix p s = true ->
  exists l ls, PyStr.split sep s = l :: ls /\ String.prefix p l = true.
Proof.
  revert p; induction s as [|c s IH]; intros p Hsep Hp.
  - exists "", []; split; [reflexivity|exact Hp].
  - destruct p as [|a p].
    + destruct (PyStr.split sep (String c s)) as [|l ls] eqn:E.
      * exfalso; exact (split_not_nil _ E).
      * exists l, ls; split; [reflexivity|apply prefix_nil].
    + simpl in Hp. destruct (ascii_dec a c) as [->|_]; [|discriminate].
      simpl in Hsep. apply orb_false_iff in Hsep as [Hc Hsep].
      rewrite Ascii.eqb_sym in Hc.
      destruct (IH p Hsep Hp) as (l & ls & E & Hl).
      exists (String c l), ls; simpl; rewrite Hc, E; split; [reflexivity|].
      simpl. destruct (ascii_dec c c) as [_|N]; [exact Hl|contradiction].
Qed.

(** An occurrence without the separator lies inside one piece. *)
Lemma contains_split (p s : string) :
  PyStr.mem_char sep p = false ->
  PyStr.contains p s = true ->
  exists line, In line (PyStr.split sep s) /\ PyStr.contains p line = true.
Proof.
  intros Hsep; induction s as [|c s IH]; intros H.
  - exists ""; split; [left; reflexivity|exact H].
  - rewrite contains_String in H. apply orb_true_iff in H as [H|H].
    + destruct (prefix_split_head p _ Hsep H) as (l & ls & E & Hl).
      exists l; rewrite E; split; [left; reflexivity|].
      destruct l; [cbn [PyStr.contains]|rewrite contains_String];
        rewrite Hl; reflexivity.
    + destruct (IH H) as (line & Hin & Hc).
      simpl. destruct (Ascii.eqb c sep).
      * exists line; split; [right; exact Hin|exact Hc].
      * destruct (PyStr.split sep s) as [|l ls]; [contradiction|].
        destruct Hin as [->|Hin].
        -- exists (String c line); split; [left; reflexivity|].
           apply contains_cons; exact Hc.
        -- exists line; split; [right; exact Hin|exact Hc].
Qed.

(** What a piece contains, the text contains. *)
Lemma split_contains (p s line : string) :
  In line (PyStr.split sep s) ->
  PyStr.contains p line = true ->
  PyStr.contains p s = true.
Proof.
  revert line; induction s as [|c s IH]; intros line Hin Hc.
  - destruct Hin as [<-|[]]; exact Hc.
  - simpl in Hin. destruct (Ascii.eqb c sep).
    + destruct Hin as [<-|Hin].
      * cbn [PyStr.contains] in Hc. rewrite orb_false_r in Hc.
        destruct p; [reflexivity|discriminate].
      * apply contains_cons; exact (IH line Hin Hc).
    + destruct (PyStr.split sep s) as [|l ls] eqn:E.
      * exfalso; exact (split_not_nil s E).
      * destruct Hin as [<-|Hin].
        -- rewrite contains_String in Hc. apply orb_true_iff in Hc as [Hc|Hc].
           ++ destruct (split_head_prefix s l ls E) as [t ->].
              rewrite contains_String. apply orb_true_iff; left.
              exact (prefix_trans p (String c l) t Hc).
           ++ apply contains_cons. apply (IH l); [left; reflexivity|exact Hc].
        -- apply contains_cons. apply (IH line); [right; exact Hin|exact Hc].
Qed.

End SplitFacts.

(** Lower-casing neither makes nor removes a line feed, so the lines of the
    lower-cased text are the lower-cased lines. *)
Lemma lower_char_LF (c : ascii) :
  Ascii.eqb (PyStr.lower_char c) PyStr.LF = Ascii.eqb c PyStr.LF.
Proof.
  destruct c as [[] [] [] [] [] [] [] []]; vm_compute; reflexivity.
Qed.

Lemma split_lower (s : string) :
  PyStr.split PyStr.LF (PyStr.lower s)
  = map PyStr.lower (PyStr.split PyStr.LF s).
Proof.
  induction s as [|c s IH]; [reflexivity|].
  cbn [PyStr.lower PyStr.split]. rewrite lower_char_LF, IH.
  destruct (Ascii.eqb c PyStr.LF); [reflexivity|].
  destruct (PyStr.split PyStr.LF s); reflexivity.
Qed.

(** ** Facts on list indexing *)

Section GetitemFacts.

Context {A : Type}.

Lemma getitem_range (l : list A) (i : Z) (x : A) :
  PyList.getitem l i = Some x ->
  (- Z.of_nat (List.length l) <= i < Z.of_nat (List.length l))%Z.
Proof.
  unfold PyList.getitem; intros H.
  destruct (0 <=? i)%Z eqn:E0.
  - apply Z.leb_le in E0.
    assert (Hn : nth_error l (Z.to_nat i) <> None) by (rewrite H; discriminate).
    apply nth_error_Some in Hn. lia.
  - apply Z.leb_gt in E0.
    destruct (- Z.of_nat (List.length l) <=? i)%Z eqn:E1; [|discriminate].
    apply Z.leb_le in E1. lia.
Qed.

Lemma getitem_defined (l : list A) (i : Z) :
  (- Z.of_nat (List.length l) <= i < Z.of_nat (List.length l))%Z ->
  exists x, PyList.getitem l i = Some x.
Proof.
  unfold PyList.getitem; intros H.
  destruct (0 <=? i)%Z eqn:E0.
  - apply Z.leb_le in E0.
    destruct (nth_error l (Z.to_nat i)) as [x|] eqn:E; [eauto|].
    apply nth_error_None in E. lia.
  - apply Z.leb_gt in E0.
    destruct (- Z.of_nat (List.length l) <=? i)%Z eqn:E1.
    + destruct (nth_error l (Z.to_nat (Z.of_nat (List.length l) + i)))
        as [x|] eqn:E; [eauto|].
      apply nth_error_None in E. lia.
    + apply Z.leb_gt in E1. lia.
Qed.

Lemma getitem_beyond (l : list A) (i : Z) :
  (Z.of_nat (List.length l) <= i)%Z -> PyList.getitem l i = None.
Proof.
  intros H. destruct (PyList.getitem l i) as [x|] eqn:E; [|reflexivity].
  apply getitem_range in E. lia.
Qed.

Lemma getitem_last_append (l : list A) (x : A) :
  PyList.getitem (PyList.append l x) (-1) = Some x.
Proof.
  unfold PyList.getitem, PyList.append.
  rewrite length_app; simpl.
  destruct (- Z.of_nat (List.length l + 1) <=? -1)%Z eqn:E.
  - replace (Z.to_nat (Z.of_nat (List.length l + 1) + -1))
      with (List.length l + 0)%nat by lia.
    rewrite nth_error_app2 by lia.
    replace (List.length l + 0 - List.length l)%nat with 0%nat by lia.
    reflexivity.
  - apply Z.leb_gt in E. lia.
Qed.

End GetitemFacts.

(** ** Facts on the scan of the evaluation *)

Section ScanFacts.

Lemma scan_followup (lines : list string) (sc : Scan) :
  followup_needed (fold_left scan_line lines sc)
  = followup_needed sc || existsb (PyStr.contains "followup: yes") lines.
Proof.
  revert sc; induction lines as [|l lines IH]; intros sc; cbn [fold_left existsb].
  - now rewrite orb_false_r.
  - rewrite IH; unfold scan_line; cbn [followup_needed].
    destruct (PyStr.contains "followup: yes" l), (followup_needed sc);
      reflexivity.
Qed.

(** The flag is set exactly when the scanned text holds the marker. *)
Lemma followup_needed_iff (s : string) :
  followup_needed (scan_response s) = PyStr.contains "followup: yes" s.
Proof.
  unfold scan_response; rewrite scan_followup; cbn [followup_needed scan_init orb].
  apply eq_true_iff_eq; rewrite existsb_exists; split.
  - intros (line & Hin & Hc). exact (split_contains _ _ _ _ Hin Hc).
  - intros H. apply contains_split; [reflexivity|exact H].
Qed.

Lemma scan_strength_none (lines : list string) (sc : Scan) :
  Forall (fun l => PyStr.startswith "strength" l = false) lines ->
  strength (fold_left scan_line lines sc) = strength sc.
Proof.
  intros H; revert sc; induction H as [|l lines Hl _ IH]; intros sc; cbn [fold_left].
  - reflexivity.
  - rewrite IH; unfold scan_line; cbn [strength]. now rewrite Hl.
Qed.

Lemma scan_weakness_none (lines : list string) (sc : Scan) :
  Forall (fun l => PyStr.startswith "weakness" l = false) lines ->
  weakness (fold_left scan_line lines sc) = weakness sc.
Proof.
  intros H; revert sc; induction H as [|l lines Hl _ IH]; intros sc; cbn [fold_left].
  - reflexivity.
  - rewrite IH; unfold scan_line; cbn [weakness]. now rewrite Hl.
Qed.

(** The last line that starts with the label decides the value. *)
Lemma scan_strength_last (pre post : list string) (line : string) (sc : Scan) :
  PyStr.startswith "strength" line = true ->
  Forall (fun l => PyStr.startswith "strength" l = false) post ->
  strength (fold_left scan_line (pre ++ line :: post) sc)
  = PyStr.strip (PyStr.replace "strength:" "" line).
Proof.
  intros Hl Hpost. rewrite fold_left_app; cbn [fold_left].
  rewrite (scan_strength_none post _ Hpost).
  unfold scan_line; cbn [strength]. now rewrite Hl.
Qed.

Lemma scan_weakness_last (pre post : list string) (line : string) (sc : Scan) :
  PyStr.startswith "weakness" line = true ->
  Forall (fun l => PyStr.startswith "weakness" l = false) post ->
  weakness (fold_left scan_line (pre ++ line :: post) sc)
  = PyStr.strip (PyStr.replace "weakness:" "" line).
Proof.
  intros Hl Hpost. rewrite fold_left_app; cbn [fold_left].
  rewrite (scan_weakness_none post _ Hpost).
  unfold scan_line; cbn [weakness]. now rewrite Hl.
Qed.

End ScanFacts.

(** ** The three ways [evaluate_answer] returns, and the way it raises *)

Section EvaluateCases.

Variable llm : LLM.
Variable state : InterviewState.
Variables question last_answer : string.

Hypothesis Hanswer : PyList.getitem (answers state) (-1) = Some last_answer.
Hypothesis Hquestion :
  PyList.getitem (questions state) (current_index state) = Some question.

Lemma evaluate_answer_followup :
  PyStr.contains "followup: yes"
    (PyStr.lower (llm (evaluation_prompt question last_answer))) = true ->
  evaluate_answer llm state
  = Ok (record_findings state
          (scan_response
             (PyStr.lower (llm (evaluation_prompt question last_answer)))),
        only_messages
          [AIMessage (PyStr.strip (llm (followup_prompt last_answer)))]).
Proof.
  intros H. unfold evaluate_answer.
  rewrite Hanswer, Hquestion; cbn [index_or_raise bind].
  now rewrite followup_needed_iff, H.
Qed.

Lemma evaluate_answer_complete :
  PyStr.contains "followup: yes"
    (PyStr.lower (llm (evaluation_prompt question last_answer))) = false ->
  (Z.of_nat (List.length (questions state)) <= current_index state + 1)%Z ->
  evaluate_answer llm state
  = Ok (record_findings state
          (scan_response
             (PyStr.lower (llm (evaluation_prompt question last_answer)))),
        index_and_messages (current_index state + 1)
          [AIMessage "Interview complete."]).
Proof.
  intros H Hlen. unfold evaluate_answer.
  rewrite Hanswer, Hquestion; cbn [index_or_raise bind].
  rewrite followup_needed_iff, H.
  apply Z.leb_le in Hlen. now rewrite Hlen.
Qed.

Lemma evaluate_answer_next :
  PyStr.contains "followup: yes"
    (PyStr.lower (llm (evaluation_prompt question last_answer))) = false ->
  (current_index state + 1 < Z.of_nat (List.length (questions state)))%Z ->
  exists next,
    PyList.getitem (questions state) (current_index state + 1) = Some next /\
    evaluate_answer llm state
    = Ok (record_findings state
          (scan_response
             (PyStr.lower (llm (evaluation_prompt question last_answer)))),
          index_and_messages (current_index state + 1) [AIMessage next]).
Proof.
  intros H Hlen.
  destruct (getitem_defined (questions state) (current_index state + 1))
    as [next Hnext].
  { pose proof (getitem_range _ _ _ Hquestion). lia. }
  exists next; split; [exact Hnext|].
  unfold evaluate_answer.
  rewrite Hanswer, Hquestion; cbn [index_or_raise bind].
  rewrite followup_needed_iff, H.
  apply Z.leb_gt in Hlen. rewrite Hlen, Hnext. reflexivity.
Qed.

(** A call that passes the two lookups takes one of the three branches. *)
Lemma evaluate_answer_branches :
  PyStr.contains "followup: yes"
    (PyStr.lower (llm (evaluation_prompt question last_answer))) = true /\
  evaluate_answer llm state
  = Ok (record_findings state
          (scan_response
             (PyStr.lower (llm (evaluation_prompt question last_answer)))),
        only_messages
          [AIMessage (PyStr.strip (llm (followup_prompt last_answer)))])
  \/
  (Z.of_nat (List.length (questions state)) <= current_index state + 1)%Z /\
  evaluate_answer llm state
  = Ok (record_findings state
          (scan_response
             (PyStr.lower (llm (evaluation_prompt question last_answer)))),
        index_and_messages (current_index state + 1)
          [AIMessage "Interview complete."])
  \/
  (current_index state + 1 < Z.of_nat (List.length (questions state)))%Z /\
  exists next,
    evaluate_answer llm state
    = Ok (record_findings state
          (scan_response
             (PyStr.lower (llm (evaluation_prompt question last_answer)))),
          index_and_messages (current_index state + 1) [AIMessage next]).
Proof.
  destruct (PyStr.contains "followup: yes"
              (PyStr.lower (llm (evaluation_prompt question last_answer))))
    eqn:H.
  - left; split; [reflexivity|exact (evaluate_answer_followup H)].
  - right.
    destruct (Z.of_nat (List.length (questions state))
              <=? current_index state + 1)%Z eqn:E.
    + apply Z.leb_le in E. left; split; [exact E|].
      exact (evaluate_answer_complete H E).
    + apply Z.leb_gt in E. right; split; [exact E|].
      destruct (evaluate_answer_next H E) as (next & _ & Hev).
      exists next; exact Hev.
Qed.

End EvaluateCases.

Lemma evaluate_answer_index_error (llm : LLM) (state : InterviewState) :
  PyList.getitem (questions state) (current_index state) = None ->
  evaluate_answer llm state = Raise IndexError.
Proof.
  intros H. unfold evaluate_answer.
  destruct (PyList.getitem (answers state) (-1)); cbn [index_or_raise bind];
    [rewrite H|]; reflexivity.
Qed.

Lemma append_if_nonempty_grows (l : list string) (x : string) :
  exists added,
    append_if_nonempty l x = l ++ added /\
    (List.length added <= 1)%nat /\
    added = (if PyStr.is_empty x then [] else [x]).
Proof.
  unfold append_if_nonempty, PyList.append.
  destruct (PyStr.is_empty x).
  - exists []; rewrite app_nil_r; auto.
  - exists [x]; auto.
Qed.

(** ** The follow-up branch *)

(** C1. When the response of the evaluation model holds the text
    "followup: yes", [evaluate_answer] returns a next message, which is the
    follow-up question that the second call of the model produced, and
    [current_index] is the same after the call: the state keeps it and the
    returned dict has no such key. *)
Theorem followup_keeps_index
  (llm : LLM) (state : InterviewState) (question last_answer : string) :
  PyList.getitem (answers state) (-1) = Some last_answer ->
  PyList.getitem (questions state) (current_index state) = Some question ->
  PyStr.contains "followup: yes"
    (llm (evaluation_prompt question last_answer)) = true ->
  exists state' res,
    evaluate_answer llm state = Ok (state', res) /\
    u_messages res
    = Some [AIMessage (PyStr.strip (llm (followup_prompt last_answer)))] /\
    u_current_index res = None /\
    current_index state' = current_index state /\
    index_after state' res = current_index state.
Proof.
  intros Ha Hq H.
  apply contains_lower in H. change (PyStr.lower "followup: yes")
    with "followup: yes" in H.
  eexists _, _; split;
    [exact (evaluate_answer_followup llm state question last_answer Ha Hq H)|].
  repeat split.
Qed.

Lemma followup_keeps_index_witness :
  exists state' res,
    evaluate_answer Sample.asks_followup Sample.state = Ok (state', res) /\
    u_messages res = Some [AIMessage "Which thread holds it?"] /\
    u_current_index res = None /\
    current_index state' = 0%Z /\
    index_after state' res = 0%Z.
Proof.
  exact (followup_keeps_index Sample.asks_followup Sample.state
           "Explain X" "X is a lock." eq_refl eq_refl eq_refl).
Defined.

(** C10. When a follow-up is signalled, the returned dict holds the new
    message and nothing else, and the call leaves the fields [resume],
    [questions], [answers] and [current_index] of the state as they were;
    [strengths] and [weaknesses] each grow by at most one element. *)
Theorem followup_frame
  (llm : LLM) (state : InterviewState) (question last_answer : string) :
  PyList.getitem (answers state) (-1) = Some last_answer ->
  PyList.getitem (questions state) (current_index state) = Some question ->
  PyStr.contains "followup: yes"
    (PyStr.lower (llm (evaluation_prompt question last_answer))) = true ->
  exists state' res s_added w_added,
    evaluate_answer llm state = Ok (state', res) /\
    res = only_messages
            [AIMessage (PyStr.strip (llm (followup_prompt last_answer)))] /\
    resume state' = resume state /\
    questions state' = questions state /\
    answers state' = answers state /\
    current_index state' = current_index state /\
    messages state' = messages state /\
    strengths state' = strengths state ++ s_added /\
    weaknesses state' = weaknesses state ++ w_added /\
    (List.length s_added <= 1)%nat /\
    (List.length w_added <= 1)%nat.
Proof.
  intros Ha Hq H.
  set (sc := scan_response
               (PyStr.lower (llm (evaluation_prompt question last_answer)))).
  destruct (append_if_nonempty_grows (strengths state) (strength sc))
    as (s_added & Hs & Hsl & _).
  destruct (append_if_nonempty_grows (weaknesses state) (weakness sc))
    as (w_added & Hw & Hwl & _).
  exists (record_findings state sc); eexists; exists s_added, w_added.
  split; [exact (evaluate_answer_followup llm state _ _ Ha Hq H)|].
  cbn [record_findings resume questions answers current_index messages
       strengths weaknesses].
  repeat split; assumption.
Qed.

Lemma followup_frame_witness :
  exists state' res s_added w_added,
    evaluate_answer Sample.asks_followup Sample.state = Ok (state', res) /\
    res = only_messages [AIMessage "Which thread holds it?"] /\
    resume state' = [("name", "Ada")] /\
    questions state' = ["Explain X"; "Explain Y"] /\
    answers state' = ["X is a lock."] /\
    current_index state' = 0%Z /\
    messages state' = [] /\
    strengths state' = [] ++ s_added /\
    weaknesses state' = [] ++ w_added /\
    (List.length s_added <= 1)%nat /\
    (List.length w_added <= 1)%nat.
Proof.
  exact (followup_frame Sample.asks_followup Sample.state
           "Explain X" "X is a lock." eq_refl eq_refl eq_refl).
Defined.

(** ** The advance branch *)

(** C2. When the lower-cased response does not signal a follow-up,
    [evaluate_answer] returns [current_index + 1]; the message is
    "Interview complete." when that index reaches the number of questions,
    and the question at that index otherwise.  On the questions
    "Explain X", "Explain Y" at index 0 the index becomes 1 and the message
    is "Explain Y". *)
Theorem advance_by_one
  (llm : LLM) (state : InterviewState) (question last_answer : string) :
  PyList.getitem (answers state) (-1) = Some last_answer ->
  PyList.getitem (questions state) (current_index state) = Some question ->
  PyStr.contains "followup: yes"
    (PyStr.lower (llm (evaluation_prompt question last_answer))) = false ->
  exists state' res,
    evaluate_answer llm state = Ok (state', res) /\
    u_current_index res = Some (current_index state + 1)%Z /\
    index_after state' res = (current_index state + 1)%Z /\
    (if (Z.of_nat (List.length (questions state))
         <=? current_index state + 1)%Z
     then u_messages res = Some [AIMessage "Interview complete."]
     else exists next,
         PyList.getitem (questions state) (current_index state + 1)
         = Some next /\
         u_messages res = Some [AIMessage next]) /\
    (questions state = ["Explain X"; "Explain Y"] ->
     current_index state = 0%Z ->
     index_after state' res = 1%Z /\
     u_messages res = Some [AIMessage "Explain Y"]).
Proof.
  intros Ha Hq H.
  destruct (Z.of_nat (List.length (questions state))
            <=? current_index state + 1)%Z eqn:E.
  - apply Z.leb_le in E.
    eexists _, _; split;
      [exact (evaluate_answer_complete llm state _ _ Ha Hq H E)|].
    do 3 (split; [reflexivity|]).
    intros Hqs Hi. rewrite Hqs, Hi in E. simpl in E. lia.
  - apply Z.leb_gt in E.
    destruct (evaluate_answer_next llm state _ _ Ha Hq H E)
      as (next & Hnext & Hev).
    eexists _, _; split; [exact Hev|].
    do 2 (split; [reflexivity|]).
    split; [exists next; split; [exact Hnext|reflexivity]|].
    intros Hqs Hi. rewrite Hqs, Hi in Hnext.
    cbn in Hnext. inversion Hnext; subst next.
    unfold index_after; cbn. rewrite Hi. split; reflexivity.
Qed.

Lemma advance_by_one_witness :
  exists state' res,
    evaluate_answer Sample.moves_on Sample.state = Ok (state', res) /\
    u_current_index res = Some 1%Z /\
    index_after state' res = 1%Z /\
    (exists next,
        PyList.getitem ["Explain X"; "Explain Y"] 1 = Some next /\
        u_messages res = Some [AIMessage next]) /\
    (questions Sample.state = ["Explain X"; "Explain Y"] ->
     current_index Sample.state = 0%Z ->
     index_after state' res = 1%Z /\
     u_messages res = Some [AIMessage "Explain Y"]).
Proof.
  exact (advance_by_one Sample.moves_on Sample.state
           "Explain X" "X is a lock." eq_refl eq_refl eq_refl).
Defined.

Example advance_to_complete :
  evaluate_answer Sample.moves_on Sample.last_state
  = Ok ({| resume := [("name", "Ada")];
           questions := ["Explain X"; "Explain Y"];
           current_index := 1%Z;
           answers := ["X is a lock."; "Y is a queue."];
           strengths := ["clear"; "names the primitive"];
           weaknesses := ["no example"];
           messages := [] |},
        index_and_messages 2 [AIMessage "Interview complete."]).
Proof. reflexivity. Qed.

(** The marker is looked for in the lower-cased response: a response that
    spells it with capitals asks for a follow-up too. *)
Example capital_marker_is_followup :
  evaluate_answer Sample.capital_followup Sample.state
  = Ok (Sample.state, only_messages [AIMessage "Why?"]).
Proof. reflexivity. Qed.

(** ** The index never goes down *)

(** A call returns the index it was given or its successor. *)
Lemma index_after_call_cases (llm : LLM) (state : InterviewState) :
  index_after_call llm state = current_index state \/
  index_after_call llm state = (current_index state + 1)%Z.
Proof.
  unfold index_after_call.
  destruct (PyList.getitem (answers state) (-1)) as [a|] eqn:Ha.
  2:{ left. unfold evaluate_answer. rewrite Ha. reflexivity. }
  destruct (PyList.getitem (questions state) (current_index state))
    as [q|] eqn:Hq.
  2:{ left. rewrite (evaluate_answer_index_error llm state Hq). reflexivity. }
  destruct (evaluate_answer_branches llm state q a Ha Hq)
    as [[_ ->] | [[_ ->] | [_ [next ->]]]]; [left|right|right]; reflexivity.
Qed.

(** C3. For every state and every behaviour of the model, [current_index]
    after a call of [evaluate_answer] is at least its value before. *)
Theorem index_never_decrements (llm : LLM) (state : InterviewState) :
  (current_index state <= index_after_call llm state)%Z.
Proof.
  destruct (index_after_call_cases llm state) as [-> | ->]; lia.
Qed.

(** ** What the scan records *)

Section ReplaceFacts.

Variables old new : string.

Lemma replace_go_skip (u t : string) :
  PyStr.replace_go old new (String.length u) (u ++ t)
  = PyStr.replace_go old new 0 t.
Proof.
  induction u as [|c u IH]; [reflexivity|exact IH].
Qed.

Lemma replace_go_head (c : ascii) (s : string) :
  PyStr.replace_go old new 0 (String c s)
  = if String.prefix old (String c s)
    then (new ++ PyStr.replace_go old new (String.length old - 1) s)%string
    else String c (PyStr.replace_go old new 0 s).
Proof. reflexivity. Qed.

Lemma replace_go_absent (s : string) :
  PyStr.contains old s = false -> PyStr.replace_go old new 0 s = s.
Proof.
  induction s as [|c s IH]; intros H; [reflexivity|].
  rewrite contains_String in H. apply orb_false_iff in H as [Hp Hc].
  rewrite replace_go_head, Hp, (IH Hc). reflexivity.
Qed.

End ReplaceFacts.

(** A tag in front of a text that holds no further tag is removed, and
    nothing else. *)
Lemma replace_tagged (tag text : string) :
  tag <> "" ->
  PyStr.contains tag text = false ->
  PyStr.replace tag "" (tag ++ text) = text.
Proof.
  intros Htag H. destruct tag as [|a tag]; [contradiction|].
  unfold PyStr.replace.
  change (String a tag ++ text)%string with (String a (tag ++ text)).
  rewrite replace_go_head.
  change (String a (tag ++ text)) with (String a tag ++ text)%string.
  rewrite prefix_app.
  cbn [String.length]. rewrite Nat.sub_succ, Nat.sub_0_r.
  rewrite replace_go_skip, replace_go_absent by exact H.
  reflexivity.
Qed.

Lemma scan_label_last
  (lbl : label) (pre post : list string) (line : string) (sc : Scan) :
  PyStr.startswith (label_word lbl) line = true ->
  no_later_line lbl post ->
  scanned lbl (fold_left scan_line (pre ++ line :: post) sc)
  = line_value lbl line.
Proof.
  destruct lbl; [apply scan_strength_last|apply scan_weakness_last].
Qed.

Lemma findings_recorded (lbl : label) (state : InterviewState) (sc : Scan) :
  findings lbl (record_findings state sc)
  = append_if_nonempty (findings lbl state) (scanned lbl sc).
Proof. destruct lbl; reflexivity. Qed.

(** Whatever branch is taken, the state that comes back is the state with
    the findings of the scan recorded. *)
Lemma evaluate_answer_records
  (llm : LLM) (state : InterviewState) (question last_answer : string) :
  PyList.getitem (answers state) (-1) = Some last_answer ->
  PyList.getitem (questions state) (current_index state) = Some question ->
  exists res,
    evaluate_answer llm state
    = Ok (record_findings state
            (scan_response
               (PyStr.lower (llm (evaluation_prompt question last_answer)))),
          res).
Proof.
  intros Ha Hq.
  destruct (evaluate_answer_branches llm state _ _ Ha Hq)
    as [[_ Hev] | [[_ Hev] | [_ [next Hev]]]]; eexists; exact Hev.
Qed.

(** C9. One call of [evaluate_answer] appends at most one element to
    [strengths] and at most one to [weaknesses]; when several lines of the
    lower-cased response start with the word of a label, the value that is
    kept is the one of the last such line, and it is what is appended (when
    it is not empty). *)
Theorem one_finding_per_label
  (llm : LLM) (state : InterviewState) (question last_answer : string) :
  PyList.getitem (answers state) (-1) = Some last_answer ->
  PyList.getitem (questions state) (current_index state) = Some question ->
  exists state' res,
    evaluate_answer llm state = Ok (state', res) /\
    forall lbl, exists added,
      findings lbl state' = findings lbl state ++ added /\
      (List.length added <= 1)%nat /\
      forall pre line post,
        PyStr.split PyStr.LF
          (PyStr.lower (llm (evaluation_prompt question last_answer)))
        = pre ++ line :: post ->
        PyStr.startswith (label_word lbl) line = true ->
        no_later_line lbl post ->
        added = (if PyStr.is_empty (line_value lbl line) then []
                 else [line_value lbl line]).
Proof.
  intros Ha Hq.
  destruct (evaluate_answer_records llm state _ _ Ha Hq) as [res Hev].
  eexists _, res; split; [exact Hev|].
  intros lbl. rewrite findings_recorded.
  destruct (append_if_nonempty_grows (findings lbl state)
              (scanned lbl
                 (scan_response
                    (PyStr.lower
                       (llm (evaluation_prompt question last_answer))))))
    as (added & Hadd & Hlen & Hval).
  exists added; split; [exact Hadd|]; split; [exact Hlen|].
  intros pre line post Hsplit Hline Hpost.
  rewrite Hval. unfold scan_response. rewrite Hsplit.
  rewrite (scan_label_last lbl pre post line scan_init Hline Hpost).
  reflexivity.
Qed.

Lemma one_finding_per_label_witness :
  exists state' res,
    evaluate_answer Sample.two_strengths Sample.state = Ok (state', res) /\
    forall lbl, exists added,
      findings lbl state' = findings lbl Sample.state ++ added /\
      (List.length added <= 1)%nat /\
      forall pre line post,
        PyStr.split PyStr.LF
          (PyStr.lower
             (Sample.two_strengths
                (evaluation_prompt "Explain X" "X is a lock.")))
        = pre ++ line :: post ->
        PyStr.startswith (label_word lbl) line = true ->
        no_later_line lbl post ->
        added = (if PyStr.is_empty (line_value lbl line) then []
                 else [line_value lbl line]).
Proof.
  exact (one_finding_per_label Sample.two_strengths Sample.state
           "Explain X" "X is a lock." eq_refl eq_refl).
Defined.

Example two_strengths_keep_last :
  evaluate_answer Sample.two_strengths Sample.state
  = Ok ({| resume := [("name", "Ada")];
           questions := ["Explain X"; "Explain Y"];
           current_index := 0%Z;
           answers := ["X is a lock."];
           strengths := ["brief"];
           weaknesses := [];
           messages := [] |},
        index_and_messages 1 [AIMessage "Explain Y"]).
Proof. reflexivity. Qed.

(** The findings are taken from the lower-cased response. *)
Example findings_are_lower_cased :
  exists state' res,
    evaluate_answer Sample.moves_on Sample.state = Ok (state', res) /\
    strengths state' = ["names the primitive"] /\
    weaknesses state' = ["no example"].
Proof. eexists _, _; repeat split. Qed.

(** C7, as the code has it.  Take the last line of the response that
    starts with "strength" (with "weakness") whatever the case of its
    letters.  When this line, lower-cased, is the tag "strength:"
    ("weakness:") and then a text that holds no further tag and is not
    blank, the trimmed text is the one element that the call appends to
    [strengths] (to [weaknesses]). *)
Theorem tagged_line_recorded
  (lbl : label) (llm : LLM) (state : InterviewState)
  (question last_answer : string)
  (pre post : list string) (line text : string) :
  PyList.getitem (answers state) (-1) = Some last_answer ->
  PyList.getitem (questions state) (current_index state) = Some question ->
  PyStr.split PyStr.LF (llm (evaluation_prompt question last_answer))
  = pre ++ line :: post ->
  PyStr.lower line = (label_tag lbl ++ text)%string ->
  PyStr.contains (label_tag lbl) text = false ->
  no_later_line lbl (map PyStr.lower post) ->
  PyStr.strip text <> "" ->
  exists state' res,
    evaluate_answer llm state = Ok (state', res) /\
    findings lbl state' = findings lbl state ++ [PyStr.strip text].
Proof.
  intros Ha Hq Hsplit Hline Htext Hpost Hblank.
  destruct (evaluate_answer_records llm state _ _ Ha Hq) as [res Hev].
  eexists _, res; split; [exact Hev|].
  rewrite findings_recorded. unfold scan_response.
  rewrite split_lower, Hsplit, map_app. cbn [map]. rewrite Hline.
  rewrite scan_label_last; [|destruct lbl; reflexivity|exact Hpost].
  unfold line_value. rewrite replace_tagged;
    [|destruct lbl; discriminate|exact Htext].
  unfold append_if_nonempty, PyList.append.
  destruct (PyStr.strip text); [contradiction|reflexivity].
Qed.

Lemma tagged_line_recorded_witness :
  exists state' res,
    evaluate_answer Sample.moves_on Sample.state = Ok (state', res) /\
    findings Strength state'
    = findings Strength Sample.state ++ ["names the primitive"].
Proof.
  apply (tagged_line_recorded Strength Sample.moves_on Sample.state
           "Explain X" "X is a lock."
           [] ["Weakness: No example"; "FollowUp: no"]
           "Strength: Names the primitive" " names the primitive").
  - reflexivity.
  - reflexivity.
  - reflexivity.
  - reflexivity.
  - reflexivity.
  - repeat constructor.
  - discriminate.
Defined.

(** C7, as it is stated, fails: the response below has the line
    "strength: clear", and after the call "clear" is not in [strengths],
    because a later line starts with "strength" too. *)
Lemma first_of_two_strengths_lost :
  PyStr.split PyStr.LF
    (Sample.two_strengths (evaluation_prompt "Explain X" "X is a lock."))
  = ["strength: clear"; "strength: brief"; "followup: no"] /\
  exists state' res,
    evaluate_answer Sample.two_strengths Sample.state = Ok (state', res) /\
    strengths Sample.state = [] /\
    strengths state' = ["brief"] /\
    ~ In "clear" (strengths state').
Proof.
  split; [vm_compute; reflexivity|].
  eexists _, _; split; [vm_compute; reflexivity|].
  split; [reflexivity|]. split; [reflexivity|].
  cbn [strengths In]. intros [H|[]]; discriminate H.
Qed.

(** ** The question-line parser *)

Lemma collect_question_fold (lines acc : list string) :
  fold_left collect_question lines acc
  = acc ++ filter (fun q => negb (PyStr.is_empty q)) (map clean_line lines).
Proof.
  revert acc; induction lines as [|l lines IH]; intros acc; cbn [fold_left map filter].
  - now rewrite app_nil_r.
  - rewrite IH. unfold collect_question, PyList.append.
    destruct (PyStr.is_empty (clean_line l)); cbn [negb].
    + reflexivity.
    + now rewrite <- app_assoc.
Qed.

Lemma parse_questions_cleaned (content : string) :
  parse_questions content = cleaned_lines content.
Proof. unfold parse_questions; now rewrite collect_question_fold. Qed.

Lemma generate_questions_cases (llm : LLM) (state : InterviewState) :
  generate_questions llm state
  = match cleaned_lines (llm (generate_prompt (resume state))) with
    | [] => Raise IndexError
    | first :: _ =>
        Ok {| u_questions :=
                Some (firstn 5
                        (cleaned_lines (llm (generate_prompt (resume state)))));
              u_current_index := Some 0%Z;
              u_answers := Some [];
              u_strengths := Some [];
              u_weaknesses := Some [];
              u_messages := Some [AIMessage first] |}
    end.
Proof.
  unfold generate_questions. rewrite parse_questions_cleaned.
  destruct (cleaned_lines (llm (generate_prompt (resume state)))); reflexivity.
Qed.

(** C5. Whatever the response, the parser keeps at most 5 questions: they
    are the first 5 of the lines that are not empty once cleaned, and they
    are the [questions] of the dict that [generate_questions] returns. *)
Theorem at_most_five_questions (llm : LLM) (state : InterviewState) :
  let content := llm (generate_prompt (resume state)) in
  (List.length (PyList.slice_to 5 (parse_questions content)) <= 5)%nat /\
  PyList.slice_to 5 (parse_questions content)
  = firstn 5 (cleaned_lines content) /\
  match generate_questions llm state with
  | Ok res => u_questions res = Some (firstn 5 (cleaned_lines content))
  | Raise _ => cleaned_lines content = []
  end.
Proof.
  intros content. split; [apply firstn_le_length|].
  split; [unfold PyList.slice_to; now rewrite parse_questions_cleaned|].
  rewrite generate_questions_cases. fold content.
  destruct (cleaned_lines content); reflexivity.
Qed.

Example numbered_questions :
  generate_questions Sample.numbered (start_state [])
  = Ok {| u_questions := Some ["What is a mutex?"; "Why use a queue?"];
          u_current_index := Some 0%Z;
          u_answers := Some [];
          u_strengths := Some [];
          u_weaknesses := Some [];
          u_messages := Some [AIMessage "What is a mutex?"] |}.
Proof. vm_compute; reflexivity. Qed.

(** C8. When every line of the response is empty once cleaned, the list of
    questions is empty and the lookup of the first question raises
    [IndexError]: [generate_questions] returns no dict. *)
Theorem no_question_index_error (llm : LLM) (state : InterviewState) :
  (forall line,
      In line (PyStr.split PyStr.LF (llm (generate_prompt (resume state)))) ->
      clean_line line = "") ->
  parse_questions (llm (generate_prompt (resume state))) = [] /\
  PyList.getitem (parse_questions (llm (generate_prompt (resume state)))) 0
  = None /\
  generate_questions llm state = Raise IndexError.
Proof.
  intros H.
  assert (E : cleaned_lines (llm (generate_prompt (resume state))) = []).
  { unfold cleaned_lines.
    induction (PyStr.split PyStr.LF (llm (generate_prompt (resume state))))
      as [|l ls IH]; [reflexivity|].
    cbn [map filter]. rewrite (H l (or_introl eq_refl)). cbn.
    apply IH; intros line Hin; apply H; right; exact Hin. }
  rewrite generate_questions_cases, parse_questions_cleaned, E.
  repeat split.
Qed.

Lemma no_question_index_error_witness :
  parse_questions (Sample.blank (generate_prompt [])) = [] /\
  PyList.getitem (parse_questions (Sample.blank (generate_prompt []))) 0
  = None /\
  generate_questions Sample.blank (start_state []) = Raise IndexError.
Proof.
  apply (no_question_index_error Sample.blank (start_state [])).
  intros line [<-|[<-|[]]]; reflexivity.
Defined.

(** ** The first character of a question *)

Lemma firstn_incl {A : Type} (n : nat) (l : list A) (x : A) :
  In x (firstn n l) -> In x l.
Proof.
  revert l; induction n as [|n IH]; intros [|y l]; cbn [firstn]; try contradiction.
  intros [->|H]; [left; reflexivity|right; exact (IH l H)].
Qed.

(** A line whose first character outside "12345. " is not a space
    character is cleaned to a text that begins with that character. *)
Lemma clean_line_head (pre : string) (d : ascii) (tail : string) :
  made_of "12345. " pre ->
  PyStr.mem_char d "12345. " = false ->
  PyStr.is_space d = false ->
  exists rest, clean_line (pre ++ String d tail) = String d rest.
Proof.
  intros Hpre Hd Hsp. unfold clean_line, PyStr.strip_chars.
  unfold PyStr.strip_by.
  rewrite (lstrip_by_app _ pre (String d tail) Hpre).
  cbn [PyStr.lstrip_by]. rewrite Hd.
  destruct (rstrip_by_keeps_head (fun c => PyStr.mem_char c "12345. ")
              d tail Hd) as [r ->].
  exact (strip_by_keeps_head PyStr.is_space d r Hsp).
Qed.

(** C6, as the code has it.  Every question is the cleaned text of a line
    of the response; it is not empty and begins with no space nor other
    white space.  When the first character of its line outside "12345. "
    is not white space, the question begins with this character, hence
    with none of 1 2 3 4 5, the period and the space. *)
Theorem question_first_character (content q : string) :
  In q (PyList.slice_to 5 (parse_questions content)) ->
  exists line c rest,
    In line (PyStr.split PyStr.LF content) /\
    q = clean_line line /\
    q = String c rest /\
    PyStr.is_space c = false /\
    c <> " "%char /\
    forall pre d tail,
      line = (pre ++ String d tail)%string ->
      made_of "12345. " pre ->
      PyStr.mem_char d "12345. " = false ->
      PyStr.is_space d = false ->
      c = d /\ PyStr.mem_char c "12345. " = false.
Proof.
  intros Hin. apply firstn_incl in Hin.
  rewrite parse_questions_cleaned in Hin. unfold cleaned_lines in Hin.
  apply filter_In in Hin as [Hin Hne].
  apply in_map_iff in Hin as (line & Hq & Hline).
  destruct q as [|c rest]; [discriminate|].
  exists line, c, rest.
  assert (Hsp : PyStr.is_space c = false).
  { apply (strip_by_head PyStr.is_space
             (PyStr.strip_chars "12345. " line) c rest). exact Hq. }
  split; [exact Hline|]. split; [symmetry; exact Hq|].
  split; [reflexivity|]. split; [exact Hsp|].
  split; [intros ->; discriminate Hsp|].
  intros pre d tail -> Hpre Hd Hd'.
  destruct (clean_line_head pre d tail Hpre Hd Hd') as [r Hr].
  rewrite Hr in Hq. inversion Hq; subst. split; [reflexivity|exact Hd].
Qed.

Lemma question_first_character_witness :
  exists line c rest,
    In line (PyStr.split PyStr.LF (Sample.numbered "")) /\
    "Why use a queue?" = clean_line line /\
    "Why use a queue?" = String c rest /\
    PyStr.is_space c = false /\
    c <> " "%char /\
    forall pre d tail,
      line = (pre ++ String d tail)%string ->
      made_of "12345. " pre ->
      PyStr.mem_char d "12345. " = false ->
      PyStr.is_space d = false ->
      c = d /\ PyStr.mem_char c "12345. " = false.
Proof.
  apply (question_first_character (Sample.numbered "") "Why use a queue?").
  vm_compute. right; left; reflexivity.
Defined.

(** C6, as it is stated, fails: the digits that are removed are 1 to 5
    only, and the question kept from the response "6. What is a mutex?"
    begins with the digit 6. *)
Lemma sixth_keeps_its_numeral :
  exists res,
    generate_questions Sample.sixth (start_state []) = Ok res /\
    u_questions res = Some ["6. What is a mutex?"] /\
    begins_with numeral_period_space "6. What is a mutex?" = true.
Proof.
  eexists; split; [vm_compute; reflexivity|].
  split; reflexivity.
Qed.

(** A digit from 1 to 5 or a period stays as well when white space other
    than the space comes before it: the second call of [strip] removes the
    white space after the first one has stopped at it. *)
Example tab_shields_the_numeral :
  clean_line ("1." ++ String (ascii_of_nat 9) "2 threads or more?")
  = "2 threads or more?".
Proof. vm_compute; reflexivity. Qed.

(** ** The index and the number of questions *)

(** What a call that returns has done. *)
Lemma evaluate_answer_inv
  (llm : LLM) (state state' : InterviewState) (res : Update) :
  evaluate_answer llm state = Ok (state', res) ->
  exists question last_answer,
    PyList.getitem (answers state) (-1) = Some last_answer /\
    PyList.getitem (questions state) (current_index state) = Some question /\
    state' = record_findings state
               (scan_response
                  (PyStr.lower
                     (llm (evaluation_prompt question last_answer)))) /\
    (res = only_messages
             [AIMessage (PyStr.strip (llm (followup_prompt last_answer)))]
     \/ (Z.of_nat (List.length (questions state)) <= current_index state + 1)%Z
        /\ res = index_and_messages (current_index state + 1)
                   [AIMessage "Interview complete."]
     \/ (current_index state + 1 < Z.of_nat (List.length (questions state)))%Z
        /\ exists next,
             res = index_and_messages (current_index state + 1)
                     [AIMessage next]).
Proof.
  intros Hev.
  destruct (PyList.getitem (answers state) (-1)) as [a|] eqn:Ha.
  2:{ unfold evaluate_answer in Hev. rewrite Ha in Hev. discriminate. }
  destruct (PyList.getitem (questions state) (current_index state))
    as [q|] eqn:Hq.
  2:{ rewrite (evaluate_answer_index_error llm state Hq) in Hev.
      discriminate. }
  exists q, a. do 2 (split; [reflexivity|]).
  destruct (evaluate_answer_branches llm state q a Ha Hq)
    as [[_ E] | [[Hend E] | [Hmore [next E]]]];
    rewrite E in Hev; inversion Hev; subst; (split; [reflexivity|]).
  - left; reflexivity.
  - right; left; split; [exact Hend|reflexivity].
  - right; right; split; [exact Hmore|exists next; reflexivity].
Qed.

Lemma loop_entry_head (llm : LLM) (resume_data : Resume) (l : Loop) :
  loop_entry llm resume_data = Ok l ->
  (0 <= l_idx l < Z.of_nat (List.length (l_questions l)))%Z.
Proof.
  unfold loop_entry, graph_invoke. rewrite generate_questions_cases.
  destruct (cleaned_lines
              (llm (generate_prompt (resume (start_state resume_data)))))
    as [|first rest]; [discriminate|].
  cbn [index_or_raise bind apply_update or_else u_questions u_messages
       questions messages].
  change (PyList.getitem [AIMessage first] (-1)) with (Some (AIMessage first)).
  cbn [index_or_raise bind]. intros H; injection H as <-.
  cbn [l_idx l_questions firstn List.length].
  split; [lia|]. apply (Nat2Z.inj_lt 0). apply Nat.lt_0_succ.
Qed.

(** A turn that goes on keeps the questions and leaves the index where it
    was or moves it to the next question. *)
Lemma loop_body_continue (llm : LLM) (answer : string) (l l' : Loop) :
  loop_body llm answer l = Ok (Continue l') ->
  l_questions l' = l_questions l /\
  (l_idx l' = l_idx l \/ l_idx l' = (l_idx l + 1)%Z) /\
  (l_idx l' < Z.of_nat (List.length (l_questions l)))%Z.
Proof.
  unfold loop_body.
  destruct (evaluate_answer llm (turn_state answer l)) as [[state' res]|e] eqn:Hev;
    cbn [bind]; [|discriminate].
  destruct (evaluate_answer_inv _ _ _ _ Hev)
    as (q & a & _ & _ & _ & Hres).
  destruct (u_messages res) as [ms|]; cbn [key_or_raise bind]; [|discriminate].
  destruct (PyList.getitem ms (-1)) as [last|]; cbn [index_or_raise bind];
    [|discriminate].
  destruct (PyStr.contains "interview complete" (PyStr.lower (content last)));
    [discriminate|].
  cbn [turn_state current_index questions] in Hres.
  destruct Hres as [-> | [[_ ->] | [_ [next ->]]]];
    cbn [only_messages index_and_messages u_current_index].
  - destruct (Z.of_nat (List.length (l_questions l)) <=? l_idx l)%Z eqn:E;
      [discriminate|].
    apply Z.leb_gt in E. intros H; inversion H; subst; cbn. auto.
  - destruct (Z.of_nat (List.length (l_questions l)) <=? l_idx l + 1)%Z eqn:E;
      [discriminate|].
    apply Z.leb_gt in E. intros H; inversion H; subst; cbn. auto.
  - destruct (Z.of_nat (List.length (l_questions l)) <=? l_idx l + 1)%Z eqn:E;
      [discriminate|].
    apply Z.leb_gt in E. intros H; inversion H; subst; cbn. auto.
Qed.

(** At the head of the loop the index points at a question. *)
Lemma loop_head_index (resume_data : Resume) (l : Loop) :
  at_loop_head resume_data l ->
  (0 <= l_idx l < Z.of_nat (List.length (l_questions l)))%Z.
Proof.
  induction 1 as [llm l Hentry | llm answer l l' _ IH Hbody].
  - exact (loop_entry_head llm resume_data l Hentry).
  - destruct (loop_body_continue llm answer l l' Hbody) as (Hqs & Hidx & Hlt).
    rewrite Hqs. destruct Hidx; lia.
Qed.

Lemma index_after_only_messages (state : InterviewState) (ms : list message) :
  index_after state (only_messages ms) = current_index state.
Proof. reflexivity. Qed.

Lemma index_after_index_and_messages
  (state : InterviewState) (i : Z) (ms : list message) :
  index_after state (index_and_messages i ms) = i.
Proof. reflexivity. Qed.

(** The terminal message ends the loop of the runner. *)
Lemma loop_body_complete
  (llm : LLM) (answer : string) (l : Loop) (state' : InterviewState) (i : Z) :
  evaluate_answer llm (turn_state answer l)
  = Ok (state', index_and_messages i [AIMessage "Interview complete."]) ->
  exists l', loop_body llm answer l = Ok (Break l').
Proof.
  intros Hev. unfold loop_body. rewrite Hev.
  cbn [bind index_and_messages u_messages key_or_raise].
  change (PyList.getitem [AIMessage "Interview complete."] (-1))
    with (Some (AIMessage "Interview complete.")).
  cbn [bind index_or_raise content].
  change (PyStr.contains "interview complete"
            (PyStr.lower "Interview complete.")) with true.
  cbn iota. eexists; reflexivity.
Qed.

(** From a state whose index has reached the number of questions, a further
    call raises and the index stays. *)
Lemma terminal_index_stays (llm : LLM) (state : InterviewState) :
  (Z.of_nat (List.length (questions state)) <= current_index state)%Z ->
  evaluate_answer llm state = Raise IndexError /\
  index_after_call llm state = current_index state.
Proof.
  intros H.
  assert (E : evaluate_answer llm state = Raise IndexError).
  { apply evaluate_answer_index_error. apply getitem_beyond. exact H. }
  split; [exact E|]. unfold index_after_call. now rewrite E.
Qed.

(** C4. At every turn of the interview the index stays within the
    questions: at the head of the loop it points at a question, and after
    the call of [evaluate_answer] it is at most the number of questions.
    It equals that number only when the message is "Interview complete.";
    the loop of the runner then ends, and a further call on the state that
    was reached would not move the index. *)
Theorem index_bounded_by_questions (resume_data : Resume) (l : Loop) :
  at_loop_head resume_data l ->
  (0 <= l_idx l < Z.of_nat (List.length (l_questions l)))%Z /\
  forall llm answer,
  exists state' res,
    evaluate_answer llm (turn_state answer l) = Ok (state', res) /\
    questions state' = l_questions l /\
    (current_index state' < Z.of_nat (List.length (questions state')))%Z /\
    (index_after state' res <= Z.of_nat (List.length (questions state')))%Z /\
    (index_after state' res = Z.of_nat (List.length (questions state')) ->
     u_messages res = Some [AIMessage "Interview complete."] /\
     (exists l', loop_body llm answer l = Ok (Break l')) /\
     forall llm',
       index_after_call llm' (apply_update state' res)
       = index_after state' res).
Proof.
  intros Hhead. pose proof (loop_head_index resume_data l Hhead) as Hidx.
  split; [exact Hidx|]. intros llm answer.
  set (state := turn_state answer l).
  assert (Ha : PyList.getitem (answers state) (-1) = Some answer)
    by apply getitem_last_append.
  destruct (getitem_defined (questions state) (current_index state))
    as [q Hq]; [cbn; lia|].
  destruct (evaluate_answer_branches llm state q answer Ha Hq)
    as [[E Hev] | [[E Hev] | [E [next Hev]]]];
    eexists _, _; (split; [exact Hev|]);
    rewrite ?index_after_only_messages, ?index_after_index_and_messages;
    cbn [record_findings questions current_index state turn_state] in E |- *;
    (split; [reflexivity|]); (split; [lia|]); (split; [lia|]); intros Hend;
    try lia.
  split; [reflexivity|].
  split; [exact (loop_body_complete llm answer l _ _ Hev)|].
  intros llm'.
  apply (terminal_index_stays llm'
           (apply_update _ (index_and_messages _ _))).
  cbn [apply_update index_and_messages or_else u_questions
       u_current_index record_findings questions current_index
       state turn_state].
  lia.
Qed.

Lemma index_bounded_by_questions_witness :
  (0 <= 0 < 2)%Z /\
  forall llm answer,
  exists state' res,
    evaluate_answer llm (turn_state answer Sample.entered)
    = Ok (state', res) /\
    questions state' = ["What is a mutex?"; "Why use a queue?"] /\
    (current_index state' < Z.of_nat (List.length (questions state')))%Z /\
    (index_after state' res <= Z.of_nat (List.length (questions state')))%Z /\
    (index_after state' res = Z.of_nat (List.length (questions state')) ->
     u_messages res = Some [AIMessage "Interview complete."] /\
     (exists l', loop_body llm answer Sample.entered = Ok (Break l')) /\
     forall llm',
       index_after_call llm' (apply_update state' res)
       = index_after state' res).
Proof.
  apply (index_bounded_by_questions [("name", "Ada")] Sample.entered).
  apply (head_entry [("name", "Ada")] Sample.numbered).
  vm_compute; reflexivity.
Defined.

(** An interview of two turns: the second answer ends it. *)
Example two_turns_end_the_interview :
  exists l,
    run_turns [(Sample.moves_on, "A lock."); (Sample.moves_on, "A buffer.")]
      Sample.entered
    = Ok (Break l) /\
    l_idx l = 1%Z /\
    l_current_question l = "Interview complete." /\
    strengths (l_state l) = ["names the primitive"; "names the primitive"].
Proof. eexists; split; [vm_compute; reflexivity|]. repeat split. Qed.

(** * Further properties of the code *)

(** ** More facts on [strip] *)

Section TrimFacts.

Variable p : ascii -> bool.

Lemma rstrip_by_cons (c : ascii) (s : string) :
  PyStr.rstrip_by p (String c s)
  = match PyStr.rstrip_by p s with
    | EmptyString => if p c then EmptyString else String c EmptyString
    | String d r => String c (String d r)
    end.
Proof. reflexivity. Qed.

Lemma forall_chars_app (a b : string) :
  forall_chars p (a ++ b) = forall_chars p a && forall_chars p b.
Proof.
  induction a as [|c a IH]; cbn [String.append forall_chars]; [reflexivity|].
  now rewrite IH, andb_assoc.
Qed.

Lemma lstrip_by_empty (s : string) :
  PyStr.is_empty (PyStr.lstrip_by p s) = forall_chars p s.
Proof.
  induction s as [|c s IH]; cbn [PyStr.lstrip_by forall_chars]; [reflexivity|].
  destruct (p c); [exact IH|reflexivity].
Qed.

Lemma forall_chars_lstrip (s : string) :
  forall_chars p (PyStr.lstrip_by p s) = forall_chars p s.
Proof.
  induction s as [|c s IH]; cbn [PyStr.lstrip_by forall_chars]; [reflexivity|].
  destruct (p c) eqn:E; [exact IH|].
  cbn [forall_chars]. now rewrite E.
Qed.

Lemma rstrip_by_empty (s : string) :
  PyStr.is_empty (PyStr.rstrip_by p s) = forall_chars p s.
Proof.
  induction s as [|c s IH]; [reflexivity|].
  rewrite rstrip_by_cons. cbn [forall_chars].
  rewrite <- IH. destruct (PyStr.rstrip_by p s); cbn [PyStr.is_empty].
  - destruct (p c); reflexivity.
  - now rewrite andb_false_r.
Qed.

(** A text is stripped to nothing exactly when it is made of the stripped
    characters. *)
Lemma strip_by_empty (s : string) :
  PyStr.is_empty (PyStr.strip_by p s) = forall_chars p s.
Proof.
  unfold PyStr.strip_by. now rewrite rstrip_by_empty, forall_chars_lstrip.
Qed.

Lemma lstrip_by_fixed (s : string) :
  begins_with p s = false -> PyStr.lstrip_by p s = s.
Proof.
  destruct s as [|c s]; cbn [begins_with PyStr.lstrip_by]; [reflexivity|].
  now intros ->.
Qed.

Lemma rstrip_by_fixed (s : string) :
  s <> "" -> ends_with p s = false -> PyStr.rstrip_by p s = s.
Proof.
  induction s as [|c s IH]; [contradiction|]. intros _ H.
  destruct s as [|d s].
  - cbn in H |- *. now rewrite H.
  - change (ends_with p (String c (String d s)))
      with (ends_with p (String d s)) in H.
    rewrite rstrip_by_cons, (IH ltac:(discriminate) H). reflexivity.
Qed.

Lemma rstrip_by_all (s : string) :
  forall_chars p s = true -> PyStr.rstrip_by p s = "".
Proof.
  intros H. rewrite <- rstrip_by_empty in H.
  destruct (PyStr.rstrip_by p s); [reflexivity|discriminate].
Qed.

Lemma rstrip_by_app (s post : string) :
  forall_chars p post = true ->
  PyStr.rstrip_by p (s ++ post) = PyStr.rstrip_by p s.
Proof.
  intros H. induction s as [|c s IH].
  - cbn [String.append]. exact (rstrip_by_all post H).
  - cbn [String.append]. now rewrite !rstrip_by_cons, IH.
Qed.

Lemma rstrip_by_idempotent (s : string) :
  PyStr.rstrip_by p (PyStr.rstrip_by p s) = PyStr.rstrip_by p s.
Proof.
  induction s as [|c s IH]; [reflexivity|].
  rewrite rstrip_by_cons.
  destruct (PyStr.rstrip_by p s) as [|d r] eqn:E.
  - destruct (p c) eqn:Ec; [reflexivity|].
    rewrite rstrip_by_cons. cbn [PyStr.rstrip_by]. now rewrite Ec.
  - rewrite rstrip_by_cons, IH. reflexivity.
Qed.

(** What [strip] returns, [strip] leaves as it is. *)
Lemma strip_by_idempotent (s : string) :
  PyStr.strip_by p (PyStr.strip_by p s) = PyStr.strip_by p s.
Proof.
  unfold PyStr.strip_by.
  assert (H : PyStr.lstrip_by p (PyStr.rstrip_by p (PyStr.lstrip_by p s))
              = PyStr.rstrip_by p (PyStr.lstrip_by p s)).
  { destruct (PyStr.rstrip_by p (PyStr.lstrip_by p s)) as [|c r] eqn:E;
      [reflexivity|].
    destruct (rstrip_by_head p _ _ _ E) as [s' Hs].
    cbn [PyStr.lstrip_by]. now rewrite (lstrip_by_head p _ _ _ Hs). }
  rewrite H. apply rstrip_by_idempotent.
Qed.

End TrimFacts.

Lemma made_of_forall_chars (chars s : string) :
  made_of chars s ->
  forall_chars (fun c => PyStr.mem_char c chars) s = true.
Proof.
  induction s as [|c s IH]; intros H; [reflexivity|].
  cbn [forall_chars]. rewrite (H c), IH; [reflexivity| |].
  - intros x Hx. apply H. cbn [PyStr.mem_char]. rewrite Hx. apply orb_true_r.
  - cbn [PyStr.mem_char]. now rewrite Ascii.eqb_refl.
Qed.

Lemma forall_chars_made_of (chars s : string) :
  forall_chars (fun c => PyStr.mem_char c chars) s = true ->
  made_of chars s.
Proof.
  induction s as [|d s IH]; intros H c Hc; [discriminate|].
  cbn [forall_chars] in H. apply andb_true_iff in H as [Hd H].
  cbn [PyStr.mem_char] in Hc. apply orb_true_iff in Hc as [Hc|Hc].
  - apply Ascii.eqb_eq in Hc. subst c. exact Hd.
  - exact (IH H c Hc).
Qed.

(** ** What passes through the string methods *)

Section KeptCharacters.

(** A property of characters that every character of a text has is kept by
    the methods that only remove characters. *)
Variable q : ascii -> bool.

Lemma forall_chars_lstrip_by (p : ascii -> bool) (s : string) :
  forall_chars q s = true -> forall_chars q (PyStr.lstrip_by p s) = true.
Proof.
  induction s as [|c s IH]; cbn [PyStr.lstrip_by forall_chars]; [reflexivity|].
  intros H. destruct (p c); [|exact H].
  apply andb_true_iff in H as [_ H]. exact (IH H).
Qed.

Lemma forall_chars_rstrip_by (p : ascii -> bool) (s : string) :
  forall_chars q s = true -> forall_chars q (PyStr.rstrip_by p s) = true.
Proof.
  induction s as [|c s IH]; [reflexivity|].
  cbn [forall_chars]. intros H. apply andb_true_iff in H as [Hc H].
  rewrite rstrip_by_cons. specialize (IH H).
  destruct (PyStr.rstrip_by p s).
  - destruct (p c); [reflexivity|]. cbn [forall_chars]. now rewrite Hc.
  - cbn [forall_chars] in IH |- *. now rewrite Hc, IH.
Qed.

Lemma forall_chars_strip_by (p : ascii -> bool) (s : string) :
  forall_chars q s = true -> forall_chars q (PyStr.strip_by p s) = true.
Proof.
  intros H. unfold PyStr.strip_by.
  apply forall_chars_rstrip_by, forall_chars_lstrip_by, H.
Qed.

Lemma forall_chars_replace_go (old : string) (k : nat) (s : string) :
  forall_chars q s = true ->
  forall_chars q (PyStr.replace_go old "" k s) = true.
Proof.
  revert k; induction s as [|c s IH]; intros k H; [reflexivity|].
  cbn [forall_chars] in H. apply andb_true_iff in H as [Hc H].
  destruct k as [|k]; [|exact (IH k H)].
  rewrite replace_go_head. destruct (String.prefix old (String c s)).
  - cbn [String.append]. exact (IH _ H).
  - cbn [forall_chars]. now rewrite Hc, (IH 0%nat H).
Qed.

Lemma forall_chars_split (sep : ascii) (s line : string) :
  forall_chars q s = true ->
  In line (PyStr.split sep s) ->
  forall_chars q line = true.
Proof.
  revert line; induction s as [|c s IH]; intros line H Hin.
  - destruct Hin as [<-|[]]; reflexivity.
  - cbn [forall_chars] in H. apply andb_true_iff in H as [Hc H].
    cbn [PyStr.split] in Hin. destruct (Ascii.eqb c sep).
    + destruct Hin as [<-|Hin]; [reflexivity|exact (IH line H Hin)].
    + destruct (PyStr.split sep s) as [|l ls] eqn:E.
      * exfalso; exact (split_not_nil sep s E).
      * destruct Hin as [<-|Hin].
        -- cbn [forall_chars]. rewrite Hc. apply (IH l H). left; reflexivity.
        -- apply (IH line H). right; exact Hin.
Qed.

End KeptCharacters.

(** No piece of a split holds the separator. *)
Lemma split_no_separator (sep : ascii) (s line : string) :
  In line (PyStr.split sep s) ->
  forall_chars (fun c => negb (Ascii.eqb c sep)) line = true.
Proof.
  revert line; induction s as [|c s IH]; intros line Hin.
  - destruct Hin as [<-|[]]; reflexivity.
  - cbn [PyStr.split] in Hin. destruct (Ascii.eqb c sep) eqn:Ec.
    + destruct Hin as [<-|Hin]; [reflexivity|exact (IH line Hin)].
    + destruct (PyStr.split sep s) as [|l ls] eqn:E.
      * exfalso; exact (split_not_nil sep s E).
      * destruct Hin as [<-|Hin].
        -- cbn [forall_chars]. rewrite Ec. apply (IH l). left; reflexivity.
        -- apply (IH line). right; exact Hin.
Qed.

Lemma no_char_mem (d : ascii) (s : string) :
  forall_chars (fun c => negb (Ascii.eqb c d)) s = true ->
  PyStr.mem_char d s = false.
Proof.
  induction s as [|c s IH]; cbn [forall_chars PyStr.mem_char]; [reflexivity|].
  intros H. apply andb_true_iff in H as [Hc H].
  rewrite (IH H), Ascii.eqb_sym. apply negb_true_iff in Hc. now rewrite Hc.
Qed.

Lemma lower_char_idempotent (c : ascii) :
  PyStr.lower_char (PyStr.lower_char c) = PyStr.lower_char c.
Proof.
  destruct c as [[] [] [] [] [] [] [] []]; vm_compute; reflexivity.
Qed.

Lemma lower_is_lower (s : string) :
  forall_chars (fun c => Ascii.eqb (PyStr.lower_char c) c) (PyStr.lower s)
  = true.
Proof.
  induction s as [|c s IH]; [reflexivity|].
  cbn [PyStr.lower forall_chars].
  rewrite lower_char_idempotent, Ascii.eqb_refl. exact IH.
Qed.

Lemma lower_fixed (s : string) :
  forall_chars (fun c => Ascii.eqb (PyStr.lower_char c) c) s = true ->
  PyStr.lower s = s.
Proof.
  induction s as [|c s IH]; [reflexivity|].
  cbn [PyStr.lower forall_chars]. intros H.
  apply andb_true_iff in H as [Hc H].
  apply Ascii.eqb_eq in Hc. now rewrite Hc, (IH H).
Qed.

Lemma strip_is_fixed (s : string) : PyStr.strip (PyStr.strip s) = PyStr.strip s.
Proof. apply strip_by_idempotent. Qed.

(** The value that the scan holds for a label at the end is the one it
    started with or the value of one of the lines. *)
Lemma scanned_origin (lbl : label) (lines : list string) (sc : Scan) :
  scanned lbl (fold_left scan_line lines sc) = scanned lbl sc \/
  exists line,
    In line lines /\
    scanned lbl (fold_left scan_line lines sc) = line_value lbl line.
Proof.
  revert sc; induction lines as [|l lines IH]; intros sc; [left; reflexivity|].
  cbn [fold_left].
  destruct (IH (scan_line sc l)) as [E | (line & Hin & E)].
  - rewrite E. unfold scan_line.
    destruct lbl; cbn [scanned strength weakness label_word].
    + destruct (PyStr.startswith "strength" l); [|left; reflexivity].
      right; exists l; split; [left; reflexivity|reflexivity].
    + destruct (PyStr.startswith "weakness" l); [|left; reflexivity].
      right; exists l; split; [left; reflexivity|reflexivity].
  - right; exists line; split; [right; exact Hin|exact E].
Qed.

Lemma line_value_kept (q : ascii -> bool) (lbl : label) (line : string) :
  forall_chars q line = true -> forall_chars q (line_value lbl line) = true.
Proof.
  intros H. unfold line_value, PyStr.strip.
  apply forall_chars_strip_by.
  destruct lbl; exact (forall_chars_replace_go q _ 0 line H).
Qed.

(** ** [evaluate_answer]: when it returns, and what it leaves alone *)

Lemma getitem_last_defined {A : Type} (l : list A) :
  l <> [] -> exists x, PyList.getitem l (-1) = Some x.
Proof.
  intros H. apply getitem_defined.
  destruct l; [contradiction|]. cbn [List.length]. lia.
Qed.

(** X1. [evaluate_answer] returns exactly when there is an answer and the
    index lies between [-len(questions)] and [len(questions) - 1] (a
    negative index counts from the end); in every other state it raises
    [IndexError]. *)
Theorem evaluate_answer_returns_iff (llm : LLM) (state : InterviewState) :
  match evaluate_answer llm state with
  | Ok _ =>
      answers state <> [] /\
      (- Z.of_nat (List.length (questions state)) <= current_index state
       < Z.of_nat (List.length (questions state)))%Z
  | Raise e =>
      e = IndexError /\
      (answers state = [] \/
       (current_index state < - Z.of_nat (List.length (questions state)))%Z \/
       (Z.of_nat (List.length (questions state)) <= current_index state)%Z)
  end.
Proof.
  destruct (PyList.getitem (answers state) (-1)) as [a|] eqn:Ha.
  - destruct (PyList.getitem (questions state) (current_index state))
      as [q|] eqn:Hq.
    + destruct (evaluate_answer_records llm state q a Ha Hq) as [res ->].
      split; [|exact (getitem_range _ _ _ Hq)].
      intros E. rewrite E in Ha. discriminate.
    + rewrite (evaluate_answer_index_error llm state Hq).
      split; [reflexivity|]. right.
      destruct (Z_lt_le_dec (current_index state)
                  (- Z.of_nat (List.length (questions state)))) as [L|L];
        [left; exact L|right].
      destruct (Z_lt_le_dec (current_index state)
                  (Z.of_nat (List.length (questions state)))) as [U|U];
        [|exact U].
      destruct (getitem_defined (questions state) (current_index state)
                  (conj L U)) as [x Hx].
      rewrite Hx in Hq. discriminate.
  - unfold evaluate_answer. rewrite Ha. cbn [index_or_raise bind].
    split; [reflexivity|]. left.
    destruct (answers state) as [|x l] eqn:E; [reflexivity|].
    destruct (getitem_last_defined (x :: l) ltac:(discriminate)) as [y Hy].
    rewrite Hy in Ha. discriminate.
Qed.

(** X2. Whatever branch it takes, a call that returns leaves [resume],
    [questions], [answers], [current_index] and [messages] of the state as
    they were, and the dict it returns has one message, an [AIMessage];
    its only other key, if any, is [current_index], set to the successor
    of the index. *)
Theorem evaluate_answer_frame
  (llm : LLM) (state state' : InterviewState) (res : Update) :
  evaluate_answer llm state = Ok (state', res) ->
  resume state' = resume state /\
  questions state' = questions state /\
  answers state' = answers state /\
  current_index state' = current_index state /\
  messages state' = messages state /\
  u_questions res = None /\
  u_answers res = None /\
  u_strengths res = None /\
  u_weaknesses res = None /\
  (exists m, u_messages res = Some [AIMessage m]) /\
  (u_current_index res = None \/
   u_current_index res = Some (current_index state + 1)%Z).
Proof.
  intros Hev.
  destruct (evaluate_answer_inv llm state state' res Hev)
    as (q & a & _ & _ & -> & [-> | [[_ ->] | [_ [next ->]]]]);
    cbn [record_findings resume questions answers current_index messages
         only_messages index_and_messages u_questions u_answers u_strengths
         u_weaknesses u_messages u_current_index];
    repeat (split; [reflexivity|]); (split; [eexists; reflexivity|]);
    [left|right|right]; reflexivity.
Qed.

Lemma evaluate_answer_frame_witness :
  resume Sample.last_state_after = resume Sample.last_state /\
  questions Sample.last_state_after = questions Sample.last_state /\
  answers Sample.last_state_after = answers Sample.last_state /\
  current_index Sample.last_state_after = current_index Sample.last_state /\
  messages Sample.last_state_after = messages Sample.last_state /\
  u_questions Sample.last_update = None /\
  u_answers Sample.last_update = None /\
  u_strengths Sample.last_update = None /\
  u_weaknesses Sample.last_update = None /\
  (exists m, u_messages Sample.last_update = Some [AIMessage m]) /\
  (u_current_index Sample.last_update = None \/
   u_current_index Sample.last_update
   = Some (current_index Sample.last_state + 1)%Z).
Proof.
  apply (evaluate_answer_frame Sample.moves_on).
  vm_compute; reflexivity.
Defined.

(** ** [evaluate_answer]: what is recorded as a finding *)

Lemma scan_label_none (lbl : label) (lines : list string) (sc : Scan) :
  no_later_line lbl lines ->
  scanned lbl (fold_left scan_line lines sc) = scanned lbl sc.
Proof.
  destruct lbl; [apply scan_strength_none|apply scan_weakness_none].
Qed.

Lemma label_word_starts (lbl : label) (line : string) :
  PyStr.startswith (label_word lbl) line = true ->
  exists c rest, line = String c rest /\ PyStr.is_space c = false.
Proof.
  intros H. apply prefix_inv in H as [t ->].
  destruct lbl; eexists _, _; split; reflexivity.
Qed.

Lemma line_value_untagged (lbl : label) (line : string) :
  PyStr.contains (label_tag lbl) line = false ->
  line_value lbl line = PyStr.strip line.
Proof.
  intros H. unfold line_value. f_equal.
  destruct lbl; exact (replace_go_absent _ "" line H).
Qed.

(** X3. The scan looks for the word ("strength", "weakness") at the start
    of a line but removes the tag with its colon.  When the last line that
    starts with the word holds no tag, as in "Strengths are many", the
    whole line, lower-cased and trimmed, is what is appended. *)
Theorem untagged_line_recorded_whole
  (lbl : label) (llm : LLM) (state : InterviewState)
  (question last_answer : string)
  (pre post : list string) (line : string) :
  PyList.getitem (answers state) (-1) = Some last_answer ->
  PyList.getitem (questions state) (current_index state) = Some question ->
  PyStr.split PyStr.LF (llm (evaluation_prompt question last_answer))
  = pre ++ line :: post ->
  PyStr.startswith (label_word lbl) (PyStr.lower line) = true ->
  PyStr.contains (label_tag lbl) (PyStr.lower line) = false ->
  no_later_line lbl (map PyStr.lower post) ->
  exists state' res,
    evaluate_answer llm state = Ok (state', res) /\
    findings lbl state'
    = findings lbl state ++ [PyStr.strip (PyStr.lower line)].
Proof.
  intros Ha Hq Hsplit Hword Htag Hpost.
  destruct (evaluate_answer_records llm state _ _ Ha Hq) as [res Hev].
  eexists _, res; split; [exact Hev|].
  rewrite findings_recorded. unfold scan_response.
  rewrite split_lower, Hsplit, map_app. cbn [map].
  rewrite (scan_label_last lbl _ _ _ scan_init Hword Hpost).
  rewrite (line_value_untagged lbl _ Htag).
  destruct (label_word_starts lbl _ Hword) as (c & rest & -> & Hc).
  destruct (strip_by_keeps_head PyStr.is_space c rest Hc) as [r Hr].
  unfold PyStr.strip. rewrite Hr. reflexivity.
Qed.

Lemma untagged_line_recorded_whole_witness :
  exists state' res,
    evaluate_answer Sample.untagged Sample.state = Ok (state', res) /\
    findings Strength state'
    = findings Strength Sample.state ++ ["strengths are many"].
Proof.
  apply (untagged_line_recorded_whole Strength Sample.untagged Sample.state
           "Explain X" "X is a lock." [] ["followup: no"]
           "Strengths are many").
  - reflexivity.
  - reflexivity.
  - reflexivity.
  - reflexivity.
  - reflexivity.
  - repeat constructor.
Defined.

(** X4. When no line of the lower-cased response starts with the word of a
    label, the call appends nothing to the list of that label. *)
Theorem no_labelled_line_no_finding
  (lbl : label) (llm : LLM) (state : InterviewState)
  (question last_answer : string) :
  PyList.getitem (answers state) (-1) = Some last_answer ->
  PyList.getitem (questions state) (current_index state) = Some question ->
  no_later_line lbl
    (PyStr.split PyStr.LF
       (PyStr.lower (llm (evaluation_prompt question last_answer)))) ->
  exists state' res,
    evaluate_answer llm state = Ok (state', res) /\
    findings lbl state' = findings lbl state.
Proof.
  intros Ha Hq Hnone.
  destruct (evaluate_answer_records llm state _ _ Ha Hq) as [res Hev].
  eexists _, res; split; [exact Hev|].
  rewrite findings_recorded. unfold scan_response.
  rewrite (scan_label_none lbl _ scan_init Hnone).
  destruct lbl; reflexivity.
Qed.

Lemma no_labelled_line_no_finding_witness :
  exists state' res,
    evaluate_answer Sample.capital_followup Sample.state = Ok (state', res) /\
    findings Weakness state' = findings Weakness Sample.state.
Proof.
  apply (no_labelled_line_no_finding Weakness Sample.capital_followup
           Sample.state "Explain X" "X is a lock.").
  - reflexivity.
  - reflexivity.
  - repeat constructor.
Defined.

(** X5. Every finding that a call adds is a non-empty text that [strip]
    and [lower] leave as it is, and it holds no line feed: the lists get
    trimmed, lower-case, one-line entries only. *)
Theorem findings_are_trimmed
  (llm : LLM) (state state' : InterviewState) (res : Update)
  (lbl : label) (x : string) :
  evaluate_answer llm state = Ok (state', res) ->
  In x (findings lbl state') ->
  In x (findings lbl state) \/
  (x <> "" /\
   PyStr.strip x = x /\
   PyStr.lower x = x /\
   PyStr.mem_char PyStr.LF x = false).
Proof.
  intros Hev Hin.
  destruct (evaluate_answer_inv llm state state' res Hev)
    as (q & a & _ & _ & -> & _).
  rewrite findings_recorded in Hin. unfold append_if_nonempty in Hin.
  destruct (PyStr.is_empty _) eqn:Hne in Hin; [left; exact Hin|].
  unfold PyList.append in Hin. apply in_app_or in Hin as [Hin|[<-|[]]];
    [left; exact Hin|right].
  split; [intros E; rewrite E in Hne; discriminate|].
  unfold scan_response in Hne |- *.
  destruct (scanned_origin lbl
              (PyStr.split PyStr.LF
                 (PyStr.lower (llm (evaluation_prompt q a)))) scan_init)
    as [E | (line & Hline & E)].
  - rewrite E in Hne. destruct lbl; discriminate.
  - rewrite E. split; [apply strip_is_fixed|]. split.
    + apply lower_fixed, line_value_kept.
      exact (forall_chars_split _ PyStr.LF _ line (lower_is_lower _) Hline).
    + apply no_char_mem, line_value_kept.
      exact (split_no_separator PyStr.LF _ line Hline).
Qed.

Lemma findings_are_trimmed_witness :
  In "no example" (findings Weakness Sample.last_state) \/
  ("no example" <> "" /\
   PyStr.strip "no example" = "no example" /\
   PyStr.lower "no example" = "no example" /\
   PyStr.mem_char PyStr.LF "no example" = false).
Proof.
  apply (findings_are_trimmed Sample.moves_on Sample.last_state
           Sample.last_state_after Sample.last_update Weakness).
  - vm_compute; reflexivity.
  - left; reflexivity.
Defined.

(** ** [generate_questions]: the dict it returns and the cleaning of a line *)

(** X6. When [generate_questions] returns, the list of questions is not
    empty, the one message of the dict is the first question, the index is
    0 and the three lists are empty; in the merged state the index points
    at the question of the message. *)
Theorem generate_questions_first_message
  (llm : LLM) (state : InterviewState) (res : Update) :
  generate_questions llm state = Ok res ->
  exists first rest,
    u_questions res = Some (first :: rest) /\
    (List.length (first :: rest) <= 5)%nat /\
    u_messages res = Some [AIMessage first] /\
    u_current_index res = Some 0%Z /\
    u_answers res = Some [] /\
    u_strengths res = Some [] /\
    u_weaknesses res = Some [] /\
    PyList.getitem (questions (apply_update state res))
      (current_index (apply_update state res)) = Some first.
Proof.
  rewrite generate_questions_cases.
  destruct (cleaned_lines (llm (generate_prompt (resume state))))
    as [|first rest]; [discriminate|].
  intros H; injection H as <-.
  exists first, (firstn 4 rest).
  split; [reflexivity|]. split; [exact (firstn_le_length 5 (first :: rest))|].
  repeat (split; [reflexivity|]). reflexivity.
Qed.

Lemma generate_questions_first_message_witness :
  exists first rest,
    Some ["What is a mutex?"; "Why use a queue?"] = Some (first :: rest) /\
    (List.length (first :: rest) <= 5)%nat /\
    Some [AIMessage "What is a mutex?"] = Some [AIMessage first] /\
    Some 0%Z = Some 0%Z /\
    Some (@nil string) = Some [] /\
    Some (@nil string) = Some [] /\
    Some (@nil string) = Some [] /\
    PyList.getitem ["What is a mutex?"; "Why use a queue?"] 0 = Some first.
Proof.
  apply (generate_questions_first_message Sample.numbered (start_state [])
           {| u_questions := Some ["What is a mutex?"; "Why use a queue?"];
              u_current_index := Some 0%Z;
              u_answers := Some [];
              u_strengths := Some [];
              u_weaknesses := Some [];
              u_messages := Some [AIMessage "What is a mutex?"] |}).
  vm_compute; reflexivity.
Defined.

(** X7. Every question that the parser keeps is a non-empty text that
    [strip] leaves as it is (no white space at either end) and that holds
    no line feed. *)
Theorem questions_are_trimmed (content q : string) :
  In q (PyList.slice_to 5 (parse_questions content)) ->
  q <> "" /\
  PyStr.strip q = q /\
  PyStr.mem_char PyStr.LF q = false.
Proof.
  intros Hin. apply firstn_incl in Hin.
  rewrite parse_questions_cleaned in Hin. unfold cleaned_lines in Hin.
  apply filter_In in Hin as [Hin Hne].
  apply in_map_iff in Hin as (line & <- & Hline).
  split; [intros E; rewrite E in Hne; discriminate|].
  split; [apply strip_is_fixed|].
  apply no_char_mem. unfold clean_line, PyStr.strip, PyStr.strip_chars.
  do 2 apply forall_chars_strip_by.
  exact (split_no_separator PyStr.LF content line Hline).
Qed.

Lemma questions_are_trimmed_witness :
  "Why use a queue?" <> "" /\
  PyStr.strip "Why use a queue?" = "Why use a queue?" /\
  PyStr.mem_char PyStr.LF "Why use a queue?" = false.
Proof.
  apply (questions_are_trimmed (Sample.numbered "")).
  vm_compute. right; left; reflexivity.
Defined.

(** X8. The cleaning of a line removes the numbering and what trails: when
    a text neither starts nor ends with white space or a character of
    "12345. ", a line made of this text between characters of "12345. " is
    cleaned to the text.  A period or a digit from 1 to 5 at the end of a
    question is thus removed like the number in front. *)
Theorem clean_line_core (pre body post : string) :
  made_of "12345. " pre ->
  made_of "12345. " post ->
  body <> "" ->
  begins_with strippable body = false ->
  ends_with strippable body = false ->
  clean_line (pre ++ body ++ post) = body.
Proof.
  intros Hpre Hpost Hne Hb He.
  assert (Hb1 : begins_with (fun c => PyStr.mem_char c "12345. ") body = false
                /\ begins_with PyStr.is_space body = false).
  { destruct body as [|c r]; [contradiction|].
    cbn [begins_with] in Hb |- *. unfold strippable in Hb.
    apply orb_false_iff in Hb. exact Hb. }
  assert (He1 : ends_with (fun c => PyStr.mem_char c "12345. ") body = false
                /\ ends_with PyStr.is_space body = false).
  { clear Hne Hb Hb1. induction body as [|c r IH]; [split; reflexivity|].
    destruct r as [|d r].
    - cbn [ends_with] in He |- *. unfold strippable in He.
      apply orb_false_iff in He. exact He.
    - exact (IH He). }
  destruct Hb1 as [Hb1 Hb2], He1 as [He1 He2].
  unfold clean_line, PyStr.strip_chars, PyStr.strip, PyStr.strip_by.
  rewrite (lstrip_by_app _ pre (body ++ post) Hpre).
  assert (Hl : PyStr.lstrip_by (fun c => PyStr.mem_char c "12345. ")
                 (body ++ post) = (body ++ post)%string).
  { apply lstrip_by_fixed. destruct body; [contradiction|exact Hb1]. }
  rewrite Hl, (rstrip_by_app _ body post (made_of_forall_chars _ _ Hpost)).
  rewrite (rstrip_by_fixed _ body Hne He1).
  rewrite (lstrip_by_fixed _ body Hb2).
  exact (rstrip_by_fixed _ body Hne He2).
Qed.

Lemma clean_line_core_witness :
  clean_line ("2. " ++ "Why use Python 3.11 here?" ++ " 1.")
  = "Why use Python 3.11 here?".
Proof.
  apply (clean_line_core "2. " "Why use Python 3.11 here?" " 1.").
  - apply forall_chars_made_of; reflexivity.
  - apply forall_chars_made_of; reflexivity.
  - discriminate.
  - reflexivity.
  - reflexivity.
Defined.

(** ** [extract_text] and the head of [run_interview] *)

Lemma strip_empty_blank (s : string) :
  PyStr.is_empty (PyStr.strip s) = blank s.
Proof. apply strip_by_empty. Qed.

Lemma blank_pages (pages : list string) (acc : string) :
  blank (fold_left (fun text page => (text ++ page)%string) pages acc)
  = blank acc && forallb blank pages.
Proof.
  revert acc; induction pages as [|pg pages IH]; intros acc;
    cbn [fold_left forallb].
  - now rewrite andb_true_r.
  - rewrite IH. unfold blank at 1. rewrite forall_chars_app.
    now rewrite andb_assoc.
Qed.

Lemma blank_paragraphs (sep : string) (paragraphs : list string) :
  blank (PyStr.join sep (filter has_text paragraphs))
  = forallb blank paragraphs.
Proof.
  induction paragraphs as [|t ts IH]; [reflexivity|].
  cbn [filter forallb]. unfold has_text at 1. rewrite strip_empty_blank.
  destruct (blank t) eqn:E; cbn [negb andb]; [exact IH|].
  unfold PyStr.join. cbn [String.concat].
  destruct (filter has_text ts); [exact E|].
  unfold blank. rewrite forall_chars_app.
  unfold blank in E. now rewrite E.
Qed.

(** X9. The text that [extract_text] returns is blank (the condition on
    which [run_interview] gives up) exactly in these cases: the extension,
    whatever its case, is neither ".pdf" nor ".docx"; the PDF has only
    blank pages; the DOCX has only blank paragraphs. *)
Theorem extract_text_blank_iff (fs : Readers) (path : string) :
  PyStr.is_empty (PyStr.strip (extract_text fs path))
  = if PyStr.endswith ".pdf" (PyStr.lower path)
    then forallb blank (pdf_pages fs path)
    else if PyStr.endswith ".docx" (PyStr.lower path)
    then forallb blank (docx_paragraphs fs path)
    else true.
Proof.
  rewrite strip_empty_blank. unfold extract_text.
  destruct (PyStr.endswith ".pdf" (PyStr.lower path)).
  - now rewrite blank_pages.
  - destruct (PyStr.endswith ".docx" (PyStr.lower path)); [|reflexivity].
    apply blank_paragraphs.
Qed.

Example extract_text_docx :
  extract_text Sample.folder "Resume.DOCX"
  = ("Ada" ++ String PyStr.LF "Engines")%string.
Proof. vm_compute; reflexivity. Qed.

Example extract_text_pdf :
  extract_text Sample.folder "resume.pdf" = "Ada Lovelace Engines".
Proof. vm_compute; reflexivity. Qed.

Lemma loop_entry_cases (llm : LLM) (resume_data : Resume) :
  loop_entry llm resume_data
  = match cleaned_lines (llm (generate_prompt resume_data)) with
    | [] => Raise IndexError
    | first :: rest =>
        Ok {| l_state := start_state resume_data;
              l_questions := firstn 5 (first :: rest);
              l_current_question := first;
              l_idx := 0%Z;
              l_followup_mode := false |}
    end.
Proof.
  unfold loop_entry, graph_invoke. rewrite generate_questions_cases.
  change (resume (start_state resume_data)) with resume_data.
  destruct (cleaned_lines (llm (generate_prompt resume_data))); reflexivity.
Qed.

(** X10. [run_interview] reaches its loop in one way only.  On a blank
    text it stops with "No readable text found." and asks no model.
    Otherwise the resume is structured and the questions are generated:
    when no line of the response is usable the run ends in [IndexError];
    else the loop starts at index 0 on the first of at most 5 questions,
    from the start state. *)
Theorem run_interview_entry_cases
  (fs : Readers) (structured_llm : string -> Resume) (llm : LLM)
  (file_path : string) :
  match run_interview_entry fs structured_llm llm file_path with
  | Ok NoReadableText => blank (extract_text fs file_path) = true
  | Ok (Entered l) =>
      blank (extract_text fs file_path) = false /\
      l_state l = start_state (structured_llm (extract_text fs file_path)) /\
      l_idx l = 0%Z /\
      (List.length (l_questions l) <= 5)%nat /\
      PyList.getitem (l_questions l) 0 = Some (l_current_question l)
  | Raise e =>
      blank (extract_text fs file_path) = false /\
      e = IndexError /\
      cleaned_lines
        (llm (generate_prompt
                (structured_llm (extract_text fs file_path)))) = []
  end.
Proof.
  unfold run_interview_entry. rewrite strip_empty_blank.
  destruct (blank (extract_text fs file_path)); [reflexivity|].
  rewrite loop_entry_cases.
  destruct (cleaned_lines _) as [|first rest]; cbn [bind].
  - repeat split.
  - split; [reflexivity|]. split; [reflexivity|]. split; [reflexivity|].
    split; [exact (firstn_le_length 5 (first :: rest))|reflexivity].
Qed.

Example unsupported_file_stops :
  run_interview_entry Sample.folder (fun _ => []) Sample.numbered "resume.txt"
  = Ok NoReadableText.
Proof. vm_compute; reflexivity. Qed.

Example blank_docx_stops :
  run_interview_entry Sample.empty_folder (fun _ => []) Sample.numbered
    "resume.docx"
  = Ok NoReadableText.
Proof. vm_compute; reflexivity. Qed.

Example readable_pdf_enters :
  run_interview_entry Sample.folder (fun _ => [("name", "Ada")])
    Sample.numbered "Resume.PDF"
  = Ok (Entered Sample.entered).
Proof. vm_compute; reflexivity. Qed.

(** ** The loop of [run_interview] *)

Lemma getitem_single {A : Type} (x : A) : PyList.getitem [x] (-1) = Some x.
Proof. reflexivity. Qed.

(** One turn of the loop, branch by branch. *)
Lemma loop_body_spec (llm : LLM) (answer : string) (l : Loop) (q : string) :
  PyList.getitem (l_questions l) (l_idx l) = Some q ->
  loop_body llm answer l
  = let state' :=
      record_findings (turn_state answer l)
        (scan_response (PyStr.lower (llm (evaluation_prompt q answer)))) in
    if PyStr.contains "followup: yes"
         (PyStr.lower (llm (evaluation_prompt q answer)))
    then
      let msg := PyStr.strip (llm (followup_prompt answer)) in
      if PyStr.contains "interview complete" (PyStr.lower msg)
      then Ok (Break (mkLoop state' (l_questions l) msg (l_idx l)
                        (l_followup_mode l)))
      else Ok (Continue (mkLoop state' (l_questions l) msg (l_idx l) true))
    else if (Z.of_nat (List.length (l_questions l)) <=? l_idx l + 1)%Z
    then Ok (Break (mkLoop state' (l_questions l) "Interview complete."
                      (l_idx l) (l_followup_mode l)))
    else
      match PyList.getitem (l_questions l) (l_idx l + 1) with
      | Some next =>
          if PyStr.contains "interview complete" (PyStr.lower next)
          then Ok (Break (mkLoop state' (l_questions l) next (l_idx l)
                            (l_followup_mode l)))
          else Ok (Continue (mkLoop state' (l_questions l) next
                               (l_idx l + 1) false))
      | None => Raise IndexError
      end.
Proof.
  intros Hq.
  assert (Ha : PyList.getitem (answers (turn_state answer l)) (-1)
               = Some answer) by apply getitem_last_append.
  assert (Hq' : PyList.getitem (questions (turn_state answer l))
                  (current_index (turn_state answer l)) = Some q)
    by exact Hq.
  pose proof (getitem_range _ _ _ Hq) as Hr.
  unfold loop_body. cbv zeta.
  destruct (PyStr.contains "followup: yes"
              (PyStr.lower (llm (evaluation_prompt q answer)))) eqn:H.
  - rewrite (evaluate_answer_followup llm _ q answer Ha Hq' H).
    cbn [bind only_messages u_messages key_or_raise u_current_index].
    rewrite getitem_single. cbn [bind index_or_raise content].
    destruct (PyStr.contains "interview complete" _); [reflexivity|].
    destruct (Z.of_nat (List.length (l_questions l)) <=? l_idx l)%Z eqn:E;
      [apply Z.leb_le in E; lia|reflexivity].
  - destruct (Z.of_nat (List.length (l_questions l)) <=? l_idx l + 1)%Z
      eqn:E.
    + pose proof E as E'. apply Z.leb_le in E'.
      rewrite (evaluate_answer_complete llm _ q answer Ha Hq' H E').
      cbn [bind index_and_messages u_messages key_or_raise u_current_index].
      rewrite getitem_single. cbn [bind index_or_raise content].
      change (PyStr.contains "interview complete"
                (PyStr.lower "Interview complete.")) with true.
      reflexivity.
    + pose proof E as E'. apply Z.leb_gt in E'.
      destruct (evaluate_answer_next llm _ q answer Ha Hq' H E')
        as (next & Hnext & Hev).
      cbn [turn_state questions current_index] in Hnext.
      rewrite Hev, Hnext.
      cbn [bind index_and_messages u_messages key_or_raise u_current_index].
      rewrite getitem_single. cbn [bind index_or_raise content].
      destruct (PyStr.contains "interview complete" _); [reflexivity|].
      change (current_index (turn_state answer l)) with (l_idx l).
      now rewrite E.
Qed.

Lemma loop_head_question (resume_data : Resume) (l : Loop) :
  at_loop_head resume_data l ->
  exists q, PyList.getitem (l_questions l) (l_idx l) = Some q.
Proof.
  intros H. apply getitem_defined.
  pose proof (loop_head_index resume_data l H). lia.
Qed.

(** A turn at the head of the loop does not raise. *)
Lemma loop_body_returns
  (resume_data : Resume) (l : Loop) (llm : LLM) (answer : string) :
  at_loop_head resume_data l ->
  exists o, loop_body llm answer l = Ok o.
Proof.
  intros Hhead.
  destruct (loop_head_question resume_data l Hhead) as [q Hq].
  pose proof (loop_head_index resume_data l Hhead) as Hidx.
  rewrite (loop_body_spec llm answer l q Hq). cbv zeta.
  destruct (PyStr.contains "followup: yes" _).
  - destruct (PyStr.contains "interview complete" _); eexists; reflexivity.
  - destruct (Z.of_nat (List.length (l_questions l)) <=? l_idx l + 1)%Z
      eqn:E; [eexists; reflexivity|].
    apply Z.leb_gt in E.
    destruct (getitem_defined (l_questions l) (l_idx l + 1)) as [next ->];
      [lia|].
    destruct (PyStr.contains "interview complete" _); eexists; reflexivity.
Qed.

(** X11. Once the loop is entered, no sequence of turns makes it raise:
    whatever the model answers and the candidate types, [evaluate_answer]
    finds its answer and its question, and the lookups of the runner
    succeed. *)
Theorem loop_never_raises
  (resume_data : Resume) (l : Loop) (turns : list (LLM * string)) :
  at_loop_head resume_data l ->
  exists o, run_turns turns l = Ok o.
Proof.
  revert l; induction turns as [|[llm answer] turns IH]; intros l Hhead.
  - eexists; reflexivity.
  - cbn [run_turns].
    destruct (loop_body_returns resume_data l llm answer Hhead) as [o Ho].
    rewrite Ho. cbn [bind]. destruct o as [l'|l'].
    + apply IH. exact (head_next resume_data llm answer l l' Hhead Ho).
    + eexists; reflexivity.
Qed.

Lemma loop_never_raises_witness :
  exists o,
    run_turns [(Sample.asks_followup, "A lock."); (Sample.moves_on, "Mine.")]
      Sample.entered
    = Ok o.
Proof.
  apply (loop_never_raises [("name", "Ada")]).
  apply (head_entry [("name", "Ada")] Sample.numbered).
  vm_compute; reflexivity.
Defined.

(** X12. The loop ends on the words "interview complete" only: when a turn
    breaks, the message of that turn holds them (in any case of letters),
    and the index variable of the runner is the one the turn started with.
    The test [idx >= len(questions)] after it never fires at the head of
    the loop. *)
Theorem break_only_on_complete
  (resume_data : Resume) (l l' : Loop) (llm : LLM) (answer : string) :
  at_loop_head resume_data l ->
  loop_body llm answer l = Ok (Break l') ->
  PyStr.contains "interview complete"
    (PyStr.lower (l_current_question l')) = true /\
  l_idx l' = l_idx l /\
  l_questions l' = l_questions l.
Proof.
  intros Hhead.
  destruct (loop_head_question resume_data l Hhead) as [q Hq].
  rewrite (loop_body_spec llm answer l q Hq). cbv zeta.
  destruct (PyStr.contains "followup: yes" _).
  - destruct (PyStr.contains "interview complete" _) eqn:E;
      intros H; inversion H; subst; cbn [l_current_question l_idx l_questions].
    repeat split; exact E.
  - destruct (Z.of_nat (List.length (l_questions l)) <=? l_idx l + 1)%Z.
    + intros H; inversion H; subst. repeat split.
    + destruct (PyList.getitem (l_questions l) (l_idx l + 1)) as [next|];
        [|discriminate].
      destruct (PyStr.contains "interview complete" _) eqn:E;
        intros H; inversion H; subst;
        cbn [l_current_question l_idx l_questions].
      repeat split; exact E.
Qed.

Lemma break_only_on_complete_witness :
  PyStr.contains "interview complete"
    (PyStr.lower (l_current_question Sample.ended)) = true /\
  l_idx Sample.ended = l_idx Sample.entered /\
  l_questions Sample.ended = l_questions Sample.entered.
Proof.
  apply (break_only_on_complete [("name", "Ada")] Sample.entered Sample.ended
           Sample.says_complete "A lock.").
  - apply (head_entry [("name", "Ada")] Sample.numbered).
    vm_compute; reflexivity.
  - vm_compute; reflexivity.
Defined.

(** What a turn does to the state, however it ends. *)
Lemma loop_body_effect (llm : LLM) (answer : string) (l : Loop) (o : outcome) :
  loop_body llm answer l = Ok o ->
  l_questions (final_loop o) = l_questions l /\
  exists sc,
    l_state (final_loop o) = record_findings (turn_state answer l) sc.
Proof.
  unfold loop_body.
  destruct (evaluate_answer llm (turn_state answer l))
    as [[state' res]|e] eqn:Hev; cbn [bind]; [|discriminate].
  destruct (evaluate_answer_inv _ _ _ _ Hev) as (q & a & _ & _ & -> & _).
  destruct (u_messages res) as [ms|]; cbn [key_or_raise bind]; [|discriminate].
  destruct (PyList.getitem ms (-1)) as [last|]; cbn [index_or_raise bind];
    [|discriminate].
  destruct (PyStr.contains "interview complete" (PyStr.lower (content last))).
  - intros H; injection H as <-. split; [reflexivity|eexists; reflexivity].
  - destruct (u_current_index res) as [i|];
      match goal with
      | |- context [(?n <=? ?i)%Z] => destruct (n <=? i)%Z
      end;
      intros H; injection H as <-; (split; [reflexivity|eexists; reflexivity]).
Qed.

Lemma record_findings_grows (lbl : label) (state : InterviewState) (sc : Scan) :
  exists added,
    findings lbl (record_findings state sc) = findings lbl state ++ added /\
    (List.length added <= 1)%nat.
Proof.
  rewrite findings_recorded.
  destruct (append_if_nonempty_grows (findings lbl state) (scanned lbl sc))
    as (added & E & Hlen & _).
  exists added; split; assumption.
Qed.

(** X13. Without follow-ups the interview ends: when no model of the turns
    to come asks for one and there are at least as many turns as questions
    left, the loop breaks, with the index still on a question, after at
    most as many answers as questions were left. *)
Theorem no_followup_terminates
  (resume_data : Resume) (l : Loop) (turns : list (LLM * string)) :
  at_loop_head resume_data l ->
  Forall (fun t => never_follows (fst t)) turns ->
  (Z.of_nat (List.length (l_questions l)) - l_idx l
   <= Z.of_nat (List.length turns))%Z ->
  exists l',
    run_turns turns l = Ok (Break l') /\
    (l_idx l <= l_idx l' < Z.of_nat (List.length (l_questions l)))%Z /\
    (Z.of_nat (List.length (answers (l_state l')))
     <= Z.of_nat (List.length (answers (l_state l)))
        + (Z.of_nat (List.length (l_questions l)) - l_idx l))%Z.
Proof.
  revert l; induction turns as [|[llm answer] turns IH];
    intros l Hhead Hnever Hlen.
  - pose proof (loop_head_index resume_data l Hhead). cbn in Hlen. lia.
  - pose proof (loop_head_index resume_data l Hhead) as Hidx.
    destruct (loop_head_question resume_data l Hhead) as [q Hq].
    inversion Hnever as [|t ts Hllm Hrest]; subst. cbn [fst] in Hllm.
    pose proof (loop_body_spec llm answer l q Hq) as Hspec. cbv zeta in Hspec.
    rewrite (Hllm (evaluation_prompt q answer)) in Hspec.
    cbn [run_turns].
    assert (Hanswers :
              forall sc,
                List.length
                  (answers (record_findings (turn_state answer l) sc))
                = S (List.length (answers (l_state l)))).
    { intros sc. cbn [record_findings answers turn_state].
      unfold PyList.append. rewrite length_app. cbn [List.length]. lia. }
    destruct (Z.of_nat (List.length (l_questions l)) <=? l_idx l + 1)%Z
      eqn:E.
    + rewrite Hspec. cbn [bind]. eexists; split; [reflexivity|].
      cbn [l_idx l_state]. rewrite Hanswers. lia.
    + apply Z.leb_gt in E.
      destruct (getitem_defined (l_questions l) (l_idx l + 1))
        as [next Hnext]; [lia|].
      rewrite Hnext in Hspec.
      destruct (PyStr.contains "interview complete" (PyStr.lower next)).
      * rewrite Hspec. cbn [bind]. eexists; split; [reflexivity|].
        cbn [l_idx l_state]. rewrite Hanswers. lia.
      * pose proof (head_next resume_data llm answer l _ Hhead Hspec)
          as Hhead'.
        rewrite Hspec. cbn [bind].
        destruct (IH _ Hhead' Hrest) as (l' & Hrun & Hi & Ha).
        { cbn [l_questions l_idx List.length] in Hlen |- *. lia. }
        exists l'. split; [exact Hrun|].
        cbn [l_questions l_idx l_state] in Hi, Ha.
        rewrite Hanswers in Ha. lia.
Qed.

Lemma no_followup_terminates_witness :
  exists l',
    run_turns [(Sample.moves_on, "A lock."); (Sample.moves_on, "A buffer.")]
      Sample.entered
    = Ok (Break l') /\
    (l_idx Sample.entered <= l_idx l'
     < Z.of_nat (List.length (l_questions Sample.entered)))%Z /\
    (Z.of_nat (List.length (answers (l_state l')))
     <= Z.of_nat (List.length (answers (l_state Sample.entered)))
        + (Z.of_nat (List.length (l_questions Sample.entered))
           - l_idx Sample.entered))%Z.
Proof.
  apply (no_followup_terminates [("name", "Ada")]).
  - apply (head_entry [("name", "Ada")] Sample.numbered).
    vm_compute; reflexivity.
  - repeat constructor; intros prompt; cbn [fst]; unfold Sample.moves_on,
      Sample.model; destruct (PyStr.contains "Interview Question: " prompt);
      reflexivity.
  - vm_compute. discriminate.
Defined.



(** X15. The lists of the session only grow during the loop.  After the
    turns that were run, the answers are the old answers followed by the
    lines typed, in order: all of them when the loop goes on, those up to
    the turn of the break otherwise.  Each list of findings is the old
    list followed by at most one element per answer. *)
Theorem session_lists_only_grow
  (turns : list (LLM * string)) (l : Loop) (o : outcome) :
  run_turns turns l = Ok o ->
  exists k,
    (k <= List.length turns)%nat /\
    answers (l_state (final_loop o))
    = answers (l_state l) ++ firstn k (map snd turns) /\
    (forall l', o = Continue l' -> k = List.length turns) /\
    forall lbl, exists added,
      findings lbl (l_state (final_loop o))
      = findings lbl (l_state l) ++ added /\
      (List.length added <= k)%nat.
Proof.
  revert l; induction turns as [|[llm answer] turns IH]; intros l Hrun.
  - cbn [run_turns] in Hrun. injection Hrun as <-. exists 0%nat.
    cbn [final_loop firstn List.length]. rewrite app_nil_r.
    split; [lia|]. split; [reflexivity|]. split; [reflexivity|].
    intros lbl; exists []. rewrite app_nil_r. split; [reflexivity|cbn; lia].
  - cbn [run_turns] in Hrun.
    destruct (loop_body llm answer l) as [o1|e] eqn:Hbody; cbn [bind] in Hrun;
      [|discriminate].
    destruct (loop_body_effect llm answer l o1 Hbody) as (_ & sc & Hstate).
    assert (Hans : answers (l_state (final_loop o1))
                   = answers (l_state l) ++ [answer])
      by (rewrite Hstate; reflexivity).
    assert (Hfind : forall lbl, exists added,
               findings lbl (l_state (final_loop o1))
               = findings lbl (l_state l) ++ added /\
               (List.length added <= 1)%nat).
    { intros lbl. rewrite Hstate.
      destruct (record_findings_grows lbl (turn_state answer l) sc)
        as (added & E & Hlen).
      exists added. split; [|exact Hlen].
      rewrite E. destruct lbl; reflexivity. }
    destruct o1 as [l1|l1]; cbn [final_loop] in Hans, Hfind.
    + destruct (IH l1 Hrun) as (k & Hk & Ha & Hc & Hf).
      exists (S k). cbn [List.length map snd firstn].
      split; [lia|]. split.
      { rewrite Ha, Hans, <- app_assoc. reflexivity. }
      split; [intros l' E; rewrite (Hc l' E); reflexivity|].
      intros lbl. destruct (Hf lbl) as (a2 & E2 & L2).
      destruct (Hfind lbl) as (a1 & E1 & L1).
      exists (a1 ++ a2). rewrite E2, E1, <- app_assoc.
      split; [reflexivity|]. rewrite length_app. lia.
    + injection Hrun as <-. exists 1%nat.
      cbn [final_loop List.length map snd firstn].
      split; [lia|]. split; [exact Hans|]. split; [discriminate|].
      exact Hfind.
Qed.

Lemma session_lists_only_grow_witness :
  exists k,
    (k <= 2)%nat /\
    answers (l_state (final_loop (Break Sample.ended)))
    = answers (l_state Sample.entered)
      ++ firstn k (map snd [(Sample.says_complete, "A lock.");
                            (Sample.moves_on, "A buffer.")]) /\
    (forall l', Break Sample.ended = Continue l' -> k = 2%nat) /\
    forall lbl, exists added,
      findings lbl (l_state (final_loop (Break Sample.ended)))
      = findings lbl (l_state Sample.entered) ++ added /\
      (List.length added <= k)%nat.
Proof.
  apply (session_lists_only_grow
           [(Sample.says_complete, "A lock."); (Sample.moves_on, "A buffer.")]
           Sample.entered (Break Sample.ended)).
  vm_compute; reflexivity.
Defined.

(** X16. The questions of an interview are fixed when the loop is entered:
    at every turn they are the list that [generate_questions] returned on
    the start state, of 1 to 5 questions, and the resume of the state is
    the one the interview started with. *)
Theorem questions_fixed_through_loop (resume_data : Resume) (l : Loop) :
  at_loop_head resume_data l ->
  (exists llm res,
      generate_questions llm (start_state resume_data) = Ok res /\
      u_questions res = Some (l_questions l)) /\
  (1 <= List.length (l_questions l) <= 5)%nat /\
  resume (l_state l) = resume_data.
Proof.
  induction 1 as [llm l Hentry | llm answer l l' _ IH Hbody].
  - rewrite loop_entry_cases in Hentry.
    destruct (cleaned_lines (llm (generate_prompt resume_data)))
      as [|first rest] eqn:E; [discriminate|].
    injection Hentry as <-. cbn [l_questions l_state].
    split; [|split; [|reflexivity]].
    + exists llm. eexists. rewrite generate_questions_cases.
      change (resume (start_state resume_data)) with resume_data.
      rewrite E. split; reflexivity.
    + pose proof (firstn_le_length 5 (first :: rest)) as Hle.
      cbn [firstn List.length] in Hle |- *. lia.
  - destruct (loop_body_effect llm answer l (Continue l') Hbody)
      as (Hqs & sc & Hstate).
    cbn [final_loop] in Hqs, Hstate. rewrite Hqs, Hstate.
    destruct IH as (Hgen & Hlen & Hres).
    split; [exact Hgen|]. split; [exact Hlen|exact Hres].
Qed.

Lemma questions_fixed_through_loop_witness :
  (exists llm res,
      generate_questions llm (start_state [("name", "Ada")]) = Ok res /\
      u_questions res = Some (l_questions Sample.entered)) /\
  (1 <= List.length (l_questions Sample.entered) <= 5)%nat /\
  resume (l_state Sample.entered) = [("name", "Ada")].
Proof.
  apply (questions_fixed_through_loop [("name", "Ada")] Sample.entered).
  apply (head_entry [("name", "Ada")] Sample.numbered).
  vm_compute; reflexivity.
Defined.

(** ** What reaches the model *)

(** X17. A call of [evaluate_answer] consults the model on two prompts
    only: the evaluation prompt of the question at the index with the last
    answer, and the follow-up prompt of the last answer.  Two models that
    agree on these give the same result: no other part of the state (the
    resume, the earlier answers, the findings, the messages) reaches the
    model. *)
Theorem evaluate_answer_prompts
  (llm llm' : LLM) (state : InterviewState) (question last_answer : string) :
  PyList.getitem (answers state) (-1) = Some last_answer ->
  PyList.getitem (questions state) (current_index state) = Some question ->
  llm (evaluation_prompt question last_answer)
  = llm' (evaluation_prompt question last_answer) ->
  llm (followup_prompt last_answer) = llm' (followup_prompt last_answer) ->
  evaluate_answer llm state = evaluate_answer llm' state.
Proof.
  intros Ha Hq He Hf. unfold evaluate_answer.
  rewrite Ha, Hq. cbn [index_or_raise bind]. now rewrite He, Hf.
Qed.

Lemma evaluate_answer_prompts_witness :
  evaluate_answer Sample.moves_on Sample.state
  = evaluate_answer Sample.moves_on_once Sample.state.
Proof.
  apply (evaluate_answer_prompts Sample.moves_on Sample.moves_on_once
           Sample.state "Explain X" "X is a lock.").
  - reflexivity.
  - reflexivity.
  - vm_compute; reflexivity.
  - vm_compute; reflexivity.
Defined.

(** X18. [generate_questions] reads the state through five keys of the
    resume only (name, experience_years, skills, projects, summary): two
    states whose resumes print the same for these keys get the same dict,
    whatever their other keys (the links among them) and their other
    fields. *)
Theorem generate_questions_reads_five_keys
  (llm : LLM) (state1 state2 : InterviewState) :
  (forall key, In key prompt_keys ->
               resume_get (resume state1) key
               = resume_get (resume state2) key) ->
  generate_questions llm state1 = generate_questions llm state2.
Proof.
  intros H. unfold generate_questions.
  assert (E : generate_prompt (resume state1)
              = generate_prompt (resume state2)).
  { unfold generate_prompt.
    rewrite (H "name"), (H "experience_years"), (H "skills"),
      (H "projects"), (H "summary"); [reflexivity|..];
      unfold prompt_keys; cbn [In]; auto 10. }
  now rewrite E.
Qed.

Lemma generate_questions_reads_five_keys_witness :
  generate_questions Sample.numbered Sample.state
  = generate_questions Sample.numbered
      (start_state [("links", "['https://example.org']"); ("name", "Ada")]).
Proof.
  apply (generate_questions_reads_five_keys Sample.numbered Sample.state
           (start_state
              [("links", "['https://example.org']"); ("name", "Ada")])).
  intros key [<-|[<-|[<-|[<-|[<-|[]]]]]]; reflexivity.
Defined.
